(** * pyflink.table.expressions: the expression factory library

    A shallow embedding of [flink-python/pyflink/table/expressions.py].
    Every public function of that module arranges its arguments, calls one
    static method of the Java class [org.apache.flink.table.api.Expressions]
    through the py4j gateway and wraps the returned handle in a Python
    [Expression] object.

    The engine behind the gateway is not part of the module.  It is modelled
    as a recording factory: an invocation is appended to a trace and the
    handle that comes back names the invocation that produced it.  Handles
    are therefore compared by content; the reference identity of Java
    objects, and rejections raised by the engine or by the transport, are
    outside the model: [get_gateway()] is taken to succeed and the factory
    to accept what it is handed.  Python wrapper objects, on the other hand,
    carry the identity they get when they are allocated. *)

From Stdlib Require Import ZArith Ascii String List Lia.
From stdpp Require Import base list strings.
Import ListNotations.
Open Scope string_scope.
Open Scope list_scope.

(** ** Values *)

(** The members of [JsonOnNull] that the module names (defaults of
    [json_object] and [json_array]). *)
Inductive JsonOnNull := NULL | ABSENT.

(** How a method of the Java class [Expressions] is reached:
    [Static] is the attribute call [gateway.jvm.Expressions.<op>(...)],
    [Reflective] is [getDeclaredMethod] + [setAccessible(True)] +
    [invoke(None, ...)], which the module uses for the non-public [apiCall]. *)
Inductive Access := Static | Reflective.

#[local] Set Warnings "-register-all".

(** Python values that reach the module.  The [P...] constructors are
    Python objects, the [J...] constructors are py4j proxies of objects that
    live in the JVM. *)
Inductive PyVal :=
| PNone
| PBool (b : bool)
| PInt (z : Z)
| PStr (s : string)
| PDataType (name : string)            (* pyflink.table.types.DataType *)
| PJsonOnNull (p : JsonOnNull)         (* pyflink.table.expression.JsonOnNull *)
| PTimePointUnit (name : string)       (* pyflink.table.expression.TimePointUnit *)
| PUdf (udf : nat)                     (* pyflink.table.udf.UserDefinedFunctionWrapper *)
| PExpression (id : nat) (j_expr : PyVal)  (* Expression wrapper: object identity, owned handle *)
| JExpression (via : Access) (op : string) (operands : list PyVal)
                                       (* the handle returned by Expressions.op(operands) *)
| JArray (elems : list PyVal)          (* Object[] *)
| JDataType (name : string)
| JJsonOnNull (p : JsonOnNull)
| JTimePointUnit (name : string)
| JFunctionDefinition (udf : nat).

(** One call of a method of the remote factory. *)
Record Invocation := mkInvocation {
  via : Access;
  op : string;
  operands : list PyVal
}.

(** The handle a recorded invocation returns. *)
Definition handle_of (i : Invocation) : PyVal :=
  JExpression (via i) (op i) (operands i).

(** ** Effects: the trace of remote invocations, Python allocation, exceptions *)

Inductive PyExc := TypeError | AttributeError | IndexError.

Record State := mkState {
  trace : list Invocation;   (* remote factory invocations, oldest first *)
  py_next : nat              (* identity of the next Python object allocated *)
}.

Definition init : State := {| trace := []; py_next := 0 |}.

Inductive Result (A : Type) :=
| Ok (a : A)
| Raise (exc : PyExc).
Arguments Ok {A} a.
Arguments Raise {A} exc.

Definition M (A : Type) : Type := State -> Result (A * State).

Definition ret {A} (a : A) : M A := fun s => Ok (a, s).

Definition raise {A} (exc : PyExc) : M A := fun _ => Raise exc.

Definition bind {A B} (m : M A) (k : A -> M B) : M B :=
  fun s => match m s with
           | Ok (a, s') => k a s'
           | Raise exc => Raise exc
           end.

Notation "x <- m ;; k" := (bind m (fun x => k))
  (at level 100, m at next level, right associativity).

(** The invocations a run added to the trace: [emitted s s' t] says that the
    run from [s] to [s'] performed exactly the invocations [t], in order. *)
Definition emitted (s s' : State) (t : list Invocation) : Prop :=
  trace s' = trace s ++ t.

Module expressions.

(** *** Collaborators imported by the module *)

(** Modelled from the spec: [_get_java_expression] (imported from
    [pyflink.table.expression], not in this source tree).  An operand is
    normalized before it crosses the boundary: a local expression wrapper
    exposes the handle it owns, anything else is handed over as it is. *)
Definition _get_java_expression (expr : PyVal) : PyVal :=
  match expr with
  | PExpression _ j_expr => j_expr
  | _ => expr
  end.

(** Modelled from the spec: [to_jarray] (imported from
    [pyflink.util.java_utils]), which expands a variable-length argument
    list into an ordered Java collection. *)
Definition to_jarray (elems : list PyVal) : PyVal := JArray elems.

(** Modelled from the spec: [_to_java_data_type] (imported from
    [pyflink.table.types]) turns a data-type descriptor into its remote
    representation and rejects anything else. *)
Definition _to_java_data_type (data_type : PyVal) : M PyVal :=
  match data_type with
  | PDataType name => ret (JDataType name)
  | _ => raise TypeError
  end.

(** Modelled from the spec: the method [JsonOnNull._to_j_json_on_null],
    which converts the enum value into its remote-side representation.  On
    an object of another class the attribute lookup fails. *)
Definition _to_j_json_on_null (on_null : PyVal) : M PyVal :=
  match on_null with
  | PJsonOnNull p => ret (JJsonOnNull p)
  | _ => raise AttributeError
  end.

(** Modelled from the spec: the method [TimePointUnit._to_j_time_point_unit]. *)
Definition _to_j_time_point_unit (time_point_unit : PyVal) : M PyVal :=
  match time_point_unit with
  | PTimePointUnit name => ret (JTimePointUnit name)
  | _ => raise AttributeError
  end.

(** Modelled from the spec: the method
    [UserDefinedFunctionWrapper._java_user_defined_function], the reference
    to the previously registered function object. *)
Definition _java_user_defined_function (f : PyVal) : M PyVal :=
  match f with
  | PUdf udf => ret (JFunctionDefinition udf)
  | _ => raise AttributeError
  end.

(** [Expression(j_expr)]: allocates a new wrapper object around a handle. *)
Definition Expression (j_expr : PyVal) : M PyVal :=
  fun s => Ok (PExpression (py_next s) j_expr,
               {| trace := trace s; py_next := S (py_next s) |}).

(** One call of [Expressions.<op_name>(operands)] over the gateway. *)
Definition invoke (how : Access) (op_name : string) (args : list PyVal) : M PyVal :=
  fun s =>
    let i := {| via := how; op := op_name; operands := args |} in
    Ok (handle_of i, {| trace := trace s ++ [i]; py_next := py_next s |}).

(** [args[i]] on the tuple of variable arguments. *)
Definition getitem (args : list PyVal) (i : nat) : M PyVal :=
  match nth_error args i with
  | Some v => ret v
  | None => raise IndexError
  end.

(** *** The arity-tagged builders *)

Definition _leaf_op (op_name : string) : M PyVal :=
  j <- invoke Static op_name [] ;;
  Expression j.

Definition _unary_op (op_name : string) (arg : PyVal) : M PyVal :=
  j <- invoke Static op_name [_get_java_expression arg] ;;
  Expression j.

Definition _binary_op (op_name : string) (first second : PyVal) : M PyVal :=
  j <- invoke Static op_name
         [_get_java_expression first; _get_java_expression second] ;;
  Expression j.

Definition _ternary_op (op_name : string) (first second third : PyVal) : M PyVal :=
  j <- invoke Static op_name
         [_get_java_expression first; _get_java_expression second;
          _get_java_expression third] ;;
  Expression j.

Definition _quaternion_op (op_name : string) (first second third forth : PyVal)
  : M PyVal :=
  j <- invoke Static op_name
         [_get_java_expression first; _get_java_expression second;
          _get_java_expression third; _get_java_expression forth] ;;
  Expression j.

Definition _varargs_op (op_name : string) (args : list PyVal) : M PyVal :=
  j <- invoke Static op_name (map _get_java_expression args) ;;
  Expression j.

(** *** Public functions, in the order of the source *)

Definition col (name : PyVal) : M PyVal := _unary_op "col" name.

Definition lit (v data_type : PyVal) : M PyVal :=
  match data_type with
  | PNone => _unary_op "lit" v
  | _ => j_type <- _to_java_data_type data_type ;;
         _binary_op "lit" v j_type
  end.

Definition range_ (start end_ : PyVal) : M PyVal := _binary_op "range" start end_.

Definition and_ (predicate0 predicate1 : PyVal) (predicates : list PyVal) : M PyVal :=
  let predicates := to_jarray (map _get_java_expression predicates) in
  _ternary_op "and" predicate0 predicate1 predicates.

Definition or_ (predicate0 predicate1 : PyVal) (predicates : list PyVal) : M PyVal :=
  let predicates := to_jarray (map _get_java_expression predicates) in
  _ternary_op "or" predicate0 predicate1 predicates.

Definition not_ (expression : PyVal) : M PyVal := _unary_op "not" expression.

Definition current_database : M PyVal := _leaf_op "currentDatabase".
Definition current_date : M PyVal := _leaf_op "currentDate".
Definition current_time : M PyVal := _leaf_op "currentTime".
Definition current_timestamp : M PyVal := _leaf_op "currentTimestamp".

Definition current_watermark (rowtimeAttribute : PyVal) : M PyVal :=
  _unary_op "currentWatermark" rowtimeAttribute.

Definition local_time : M PyVal := _leaf_op "localTime".
Definition local_timestamp : M PyVal := _leaf_op "localTimestamp".

Definition to_date (date_str format : PyVal) : M PyVal :=
  match format with
  | PNone => _unary_op "toDate" date_str
  | _ => _binary_op "toDate" date_str format
  end.

Definition to_timestamp (timestamp_str format : PyVal) : M PyVal :=
  match format with
  | PNone => _unary_op "toTimestamp" timestamp_str
  | _ => _binary_op "toTimestamp" timestamp_str format
  end.

Definition to_timestamp_ltz (args : list PyVal) : M PyVal :=
  if (length args =? 1)%nat then
    a0 <- getitem args 0 ;; l0 <- lit a0 PNone ;;
    _unary_op "toTimestampLtz" l0
  else if (length args =? 2)%nat then
    a0 <- getitem args 0 ;; l0 <- lit a0 PNone ;;
    a1 <- getitem args 1 ;; l1 <- lit a1 PNone ;;
    _binary_op "toTimestampLtz" l0 l1
  else
    a0 <- getitem args 0 ;; l0 <- lit a0 PNone ;;
    a1 <- getitem args 1 ;; l1 <- lit a1 PNone ;;
    a2 <- getitem args 2 ;; l2 <- lit a2 PNone ;;
    _ternary_op "toTimestampLtz" l0 l1 l2.

Definition temporal_overlaps
  (left_time_point left_temporal right_time_point right_temporal : PyVal) : M PyVal :=
  _quaternion_op "temporalOverlaps"
    left_time_point left_temporal right_time_point right_temporal.

Definition date_format (timestamp format : PyVal) : M PyVal :=
  _binary_op "dateFormat" timestamp format.

Definition timestamp_diff (time_point_unit time_point1 time_point2 : PyVal) : M PyVal :=
  j_unit <- _to_j_time_point_unit time_point_unit ;;
  _ternary_op "timestampDiff" j_unit time_point1 time_point2.

Definition convert_tz (date_str tz_from tz_to : PyVal) : M PyVal :=
  _ternary_op "convertTz" date_str tz_from tz_to.

Definition from_unixtime (unixtime format : PyVal) : M PyVal :=
  match format with
  | PNone => _unary_op "fromUnixtime" unixtime
  | _ => _binary_op "fromUnixtime" unixtime format
  end.

Definition unix_timestamp (date_str format : PyVal) : M PyVal :=
  match date_str with
  | PNone => _leaf_op "unixTimestamp"
  | _ => match format with
         | PNone => _unary_op "unixTimestamp" date_str
         | _ => _binary_op "unixTimestamp" date_str format
         end
  end.

Definition array (head : PyVal) (tail : list PyVal) : M PyVal :=
  let tail := to_jarray (map _get_java_expression tail) in
  _binary_op "array" head tail.

Definition row (head : PyVal) (tail : list PyVal) : M PyVal :=
  let tail := to_jarray (map _get_java_expression tail) in
  _binary_op "row" head tail.

Definition map_ (key value : PyVal) (tail : list PyVal) : M PyVal :=
  let tail := to_jarray (map _get_java_expression tail) in
  _ternary_op "map" key value tail.

Definition map_from_arrays (key value : PyVal) : M PyVal :=
  _binary_op "mapFromArrays" key value.

Definition object_of (class_name : PyVal) (args : list PyVal) : M PyVal :=
  _varargs_op "objectOf" (class_name :: args).

Definition row_interval (rows : PyVal) : M PyVal := _unary_op "rowInterval" rows.

Definition pi : M PyVal := _leaf_op "pi".
Definition e : M PyVal := _leaf_op "e".

Definition rand (seed : PyVal) : M PyVal :=
  match seed with
  | PNone => _leaf_op "rand"
  | _ => _unary_op "rand" seed
  end.

Definition rand_integer (bound seed : PyVal) : M PyVal :=
  match seed with
  | PNone => _unary_op "randInteger" bound
  | _ => _binary_op "randInteger" seed bound
  end.

Definition atan2 (y x : PyVal) : M PyVal := _binary_op "atan2" y x.

Definition negative (v : PyVal) : M PyVal := _unary_op "negative" v.

Definition concat (first : PyVal) (others : list PyVal) : M PyVal :=
  _binary_op "concat" first (to_jarray (map _get_java_expression others)).

Definition concat_ws (separator first : PyVal) (others : list PyVal) : M PyVal :=
  _ternary_op "concatWs" separator first
    (to_jarray (map _get_java_expression others)).

Definition uuid : M PyVal := _leaf_op "uuid".

Definition null_of (data_type : PyVal) : M PyVal :=
  j_type <- _to_java_data_type data_type ;;
  _unary_op "nullOf" j_type.

Definition log (v base : PyVal) : M PyVal :=
  match base with
  | PNone => _unary_op "log" v
  | _ => _binary_op "log" base v
  end.

Definition source_watermark : M PyVal := _leaf_op "sourceWatermark".

Definition if_then_else (condition if_true if_false : PyVal) : M PyVal :=
  _ternary_op "ifThenElse" condition if_true if_false.

Definition coalesce (args : list PyVal) : M PyVal :=
  let args := to_jarray (map _get_java_expression args) in
  _unary_op "coalesce" args.

Definition with_all_columns : M PyVal := _leaf_op "withAllColumns".

Definition with_columns (head : PyVal) (tails : list PyVal) : M PyVal :=
  let tails := to_jarray (map _get_java_expression tails) in
  _binary_op "withColumns" head tails.

Definition without_columns (head : PyVal) (tails : list PyVal) : M PyVal :=
  let tails := to_jarray (map _get_java_expression tails) in
  _binary_op "withoutColumns" head tails.

Definition json (value : PyVal) : M PyVal := _unary_op "json" value.

Definition json_string (value : PyVal) : M PyVal := _unary_op "jsonString" value.

Definition json_object (on_null : PyVal) (args : list PyVal) : M PyVal :=
  j_on_null <- _to_j_json_on_null on_null ;;
  _varargs_op "jsonObject" (j_on_null :: args).

Definition json_object_agg (on_null key_expr value_expr : PyVal) : M PyVal :=
  j_on_null <- _to_j_json_on_null on_null ;;
  _ternary_op "jsonObjectAgg" j_on_null key_expr value_expr.

Definition json_array (on_null : PyVal) (args : list PyVal) : M PyVal :=
  j_on_null <- _to_j_json_on_null on_null ;;
  _varargs_op "jsonArray" (j_on_null :: args).

Definition json_array_agg (on_null item_expr : PyVal) : M PyVal :=
  j_on_null <- _to_j_json_on_null on_null ;;
  _binary_op "jsonArrayAgg" j_on_null item_expr.

Definition lag (expr offset default : PyVal) : M PyVal :=
  match default with
  | PNone => _binary_op "lag" expr offset
  | _ => _ternary_op "lag" expr offset default
  end.

Definition lead (expr offset default : PyVal) : M PyVal :=
  match default with
  | PNone => _binary_op "lead" expr offset
  | _ => _ternary_op "lead" expr offset default
  end.

Definition call (f : PyVal) (args : list PyVal) : M PyVal :=
  match f with
  | PStr _ =>
      j <- invoke Static "call"
             [f; to_jarray (map _get_java_expression args)] ;;
      Expression j
  | _ =>
      j_function <- _java_user_defined_function f ;;
      j <- invoke Reflective "apiCall"
             [j_function; to_jarray (map _get_java_expression args)] ;;
      Expression j
  end.

Definition call_sql (sql_expression : PyVal) : M PyVal :=
  _unary_op "callSql" sql_expression.

End expressions.

(** ** Calling a function with positional arguments

    A public function is called with a tuple of positional arguments.
    Python binds them to the parameters of the [def] and raises [TypeError]
    when their number does not fit.  A parameter with a default takes it
    when the caller leaves it out; the starred parameter takes what is left.
    Calls that pass arguments by keyword are not modelled. *)

Module signature.

Definition Callable : Type := list PyVal -> M PyVal.

(** [def f()] *)
Definition params0 (body : M PyVal) : Callable :=
  fun pos => match pos with
             | [] => body
             | _ => raise TypeError
             end.

(** [def f(a)] *)
Definition params1 (body : PyVal -> M PyVal) : Callable :=
  fun pos => match pos with
             | [a] => body a
             | _ => raise TypeError
             end.

(** [def f(a, b)] *)
Definition params2 (body : PyVal -> PyVal -> M PyVal) : Callable :=
  fun pos => match pos with
             | [a; b] => body a b
             | _ => raise TypeError
             end.

(** [def f(a, b, c)] *)
Definition params3 (body : PyVal -> PyVal -> PyVal -> M PyVal) : Callable :=
  fun pos => match pos with
             | [a; b; c] => body a b c
             | _ => raise TypeError
             end.

(** [def f(a, b, c, d)] *)
Definition params4 (body : PyVal -> PyVal -> PyVal -> PyVal -> M PyVal) : Callable :=
  fun pos => match pos with
             | [a; b; c; d] => body a b c d
             | _ => raise TypeError
             end.

(** [def f(a, b, c, d, e)] *)
Definition params5
  (body : PyVal -> PyVal -> PyVal -> PyVal -> PyVal -> M PyVal) : Callable :=
  fun pos => match pos with
             | [a; b; c; d; e] => body a b c d e
             | _ => raise TypeError
             end.

(** [def f(a=d0)] *)
Definition params0_1 (d0 : PyVal) (body : PyVal -> M PyVal) : Callable :=
  fun pos => match pos with
             | [] => body d0
             | [a] => body a
             | _ => raise TypeError
             end.

(** [def f(a=d0, b=d1)] *)
Definition params0_2 (d0 d1 : PyVal) (body : PyVal -> PyVal -> M PyVal) : Callable :=
  fun pos => match pos with
             | [] => body d0 d1
             | [a] => body a d1
             | [a; b] => body a b
             | _ => raise TypeError
             end.

(** [def f(a, b=d1)] *)
Definition params1_1 (d1 : PyVal) (body : PyVal -> PyVal -> M PyVal) : Callable :=
  fun pos => match pos with
             | [a] => body a d1
             | [a; b] => body a b
             | _ => raise TypeError
             end.

(** [def f(a, b=d1, c=d2)] *)
Definition params1_2 (d1 d2 : PyVal) (body : PyVal -> PyVal -> PyVal -> M PyVal)
  : Callable :=
  fun pos => match pos with
             | [a] => body a d1 d2
             | [a; b] => body a b d2
             | [a; b; c] => body a b c
             | _ => raise TypeError
             end.

(** [def f( *args)] *)
Definition varargs0 (body : list PyVal -> M PyVal) : Callable := body.

(** [def f(a, *args)] *)
Definition varargs1 (body : PyVal -> list PyVal -> M PyVal) : Callable :=
  fun pos => match pos with
             | a :: args => body a args
             | _ => raise TypeError
             end.

(** [def f(a, b, *args)] *)
Definition varargs2 (body : PyVal -> PyVal -> list PyVal -> M PyVal) : Callable :=
  fun pos => match pos with
             | a :: b :: args => body a b args
             | _ => raise TypeError
             end.

(** [def f(a=d0, *args)] *)
Definition varargs0_1 (d0 : PyVal) (body : PyVal -> list PyVal -> M PyVal) : Callable :=
  fun pos => match pos with
             | [] => body d0 []
             | a :: args => body a args
             end.

End signature.

(** The public functions of the module, each under its Python name and with
    the parameter list of its [def] (defaults included). *)
Definition public_functions : list (string * signature.Callable) :=
  let d := PNone in
  [ ("col", signature.params1 expressions.col);
    ("lit", signature.params1_1 d expressions.lit);
    ("range_", signature.params2 expressions.range_);
    ("and_", signature.varargs2 expressions.and_);
    ("or_", signature.varargs2 expressions.or_);
    ("not_", signature.params1 expressions.not_);
    ("current_database", signature.params0 expressions.current_database);
    ("current_date", signature.params0 expressions.current_date);
    ("current_time", signature.params0 expressions.current_time);
    ("current_timestamp", signature.params0 expressions.current_timestamp);
    ("current_watermark", signature.params1 expressions.current_watermark);
    ("local_time", signature.params0 expressions.local_time);
    ("local_timestamp", signature.params0 expressions.local_timestamp);
    ("to_date", signature.params1_1 d expressions.to_date);
    ("to_timestamp", signature.params1_1 d expressions.to_timestamp);
    ("to_timestamp_ltz", signature.varargs0 expressions.to_timestamp_ltz);
    ("temporal_overlaps", signature.params4 expressions.temporal_overlaps);
    ("date_format", signature.params2 expressions.date_format);
    ("timestamp_diff", signature.params3 expressions.timestamp_diff);
    ("convert_tz", signature.params3 expressions.convert_tz);
    ("from_unixtime", signature.params1_1 d expressions.from_unixtime);
    ("unix_timestamp", signature.params0_2 d d expressions.unix_timestamp);
    ("array", signature.varargs1 expressions.array);
    ("row", signature.varargs1 expressions.row);
    ("map_", signature.varargs2 expressions.map_);
    ("map_from_arrays", signature.params2 expressions.map_from_arrays);
    ("object_of", signature.varargs1 expressions.object_of);
    ("row_interval", signature.params1 expressions.row_interval);
    ("pi", signature.params0 expressions.pi);
    ("e", signature.params0 expressions.e);
    ("rand", signature.params0_1 d expressions.rand);
    ("rand_integer", signature.params1_1 d expressions.rand_integer);
    ("atan2", signature.params2 expressions.atan2);
    ("negative", signature.params1 expressions.negative);
    ("concat", signature.varargs1 expressions.concat);
    ("concat_ws", signature.varargs2 expressions.concat_ws);
    ("uuid", signature.params0 expressions.uuid);
    ("null_of", signature.params1 expressions.null_of);
    ("log", signature.params1_1 d expressions.log);
    ("source_watermark", signature.params0 expressions.source_watermark);
    ("if_then_else", signature.params3 expressions.if_then_else);
    ("coalesce", signature.varargs0 expressions.coalesce);
    ("with_all_columns", signature.params0 expressions.with_all_columns);
    ("with_columns", signature.varargs1 expressions.with_columns);
    ("without_columns", signature.varargs1 expressions.without_columns);
    ("json", signature.params1 expressions.json);
    ("json_string", signature.params1 expressions.json_string);
    ("json_object", signature.varargs0_1 (PJsonOnNull NULL) expressions.json_object);
    ("json_object_agg", signature.params3 expressions.json_object_agg);
    ("json_array", signature.varargs0_1 (PJsonOnNull ABSENT) expressions.json_array);
    ("json_array_agg", signature.params2 expressions.json_array_agg);
    ("lag", signature.params1_2 (PInt 1) d expressions.lag);
    ("lead", signature.params1_2 (PInt 1) d expressions.lead);
    ("call", signature.varargs1 expressions.call);
    ("call_sql", signature.params1 expressions.call_sql) ].

(** [lookup_function name]: the public function bound to [name]. *)
Fixpoint assoc {A} (name : string) (table : list (string * A)) : option A :=
  match table with
  | [] => None
  | (n, a) :: rest => if String.eqb n name then Some a else assoc name rest
  end.

(** [py_call name pos]: the Python call [expressions.<name>( *pos)].  A name
    the module does not define raises [AttributeError]. *)
Definition py_call (name : string) (pos : list PyVal) : M PyVal :=
  match assoc name public_functions with
  | Some f => f pos
  | None => raise AttributeError
  end.

(** The invocation [Expressions.<op_name>(args)] reached by attribute call. *)
Definition static (op_name : string) (args : list PyVal) : Invocation :=
  {| via := Static; op := op_name; operands := args |}.

(** The invocation of the non-public [Expressions.<op_name>] through
    [java.lang.reflect.Method.invoke]. *)
Definition reflective (op_name : string) (args : list PyVal) : Invocation :=
  {| via := Reflective; op := op_name; operands := args |}.

(** The remote call [Expressions.lit(v)] that [lit(v)] makes, and the handle
    it returns. *)
Definition lit_call (v : PyVal) : Invocation :=
  static "lit" [expressions._get_java_expression v].

Definition lit_handle (v : PyVal) : PyVal := handle_of (lit_call v).

(** The result of a call that allocated [k] intermediate wrappers, performed
    the invocations [t] and returned a new wrapper around [j]. *)
Definition returns (s : State) (k : nat) (t : list Invocation) (j : PyVal)
  : Result (PyVal * State) :=
  Ok (PExpression (k + py_next s) j,
      {| trace := trace s ++ t; py_next := S (k + py_next s) |}).

(** ** The module object and the documentation pass

    A Python function is an object on the heap; its [__doc__] can be
    assigned, its code cannot.  The namespace of the module binds names to
    references, and two names may be bound to the same object. *)

Record Function := mkFunction {
  f_doc : string;               (* __doc__ *)
  f_call : signature.Callable   (* what calling the object does *)
}.

Inductive PyObj :=
| OFunction (f : Function)
| OOther.                       (* constants, classes, imported modules *)

(** [inspect.isfunction] on a reference. *)
Definition isfunction (heap : list PyObj) (ref : nat) : bool :=
  match heap !! ref with
  | Some (OFunction _) => true
  | _ => false
  end.

(** [name.startswith(prefix)] *)
Definition startswith (name prefix : string) : bool := String.prefix prefix name.

Definition newline : string := String (Ascii.ascii_of_nat 10) EmptyString.

(** The "since version" marker and a docstring that carries it. *)
Definition versionadded (version : string) : string :=
  (newline ++ newline ++ ".. versionadded:: " ++ version)%string.

Definition has_version_marker (version doc : string) : Prop :=
  exists original, doc = (original ++ versionadded version)%string.

(** Modelled from the spec: [add_version_doc] (imported from the package
    [pyflink], not in this source tree) attaches a "since version" marker to
    the documentation of the function object it is given. *)
Definition add_version_doc (f : nat) (version : string) (heap : list PyObj)
  : list PyObj :=
  match heap !! f with
  | Some (OFunction fn) =>
      <[f := OFunction {| f_doc := (f_doc fn ++ versionadded version)%string;
                          f_call := f_call fn |}]> heap
  | _ => heap
  end.

(** The body of the loop of [_add_version_doc], for one member [o]. *)
Definition annotate (heap : list PyObj) (o : string * nat) : list PyObj :=
  if isfunction heap (snd o) && negb (startswith (fst o) "_")
  then add_version_doc (snd o) "1.12.0" heap
  else heap.

(** [_add_version_doc()], run once when the module is loaded: [members] is
    what [inspect.getmembers(expressions)] lists, name and reference. *)
Definition _add_version_doc (members : list (string * nat)) (heap : list PyObj)
  : list PyObj :=
  fold_left annotate members heap.

(** A reference whose function object carries the 1.12.0 marker. *)
Definition marked (heap : list PyObj) (ref : nat) : Prop :=
  exists fn, heap !! ref = Some (OFunction fn) /\
             has_version_marker "1.12.0" (f_doc fn).

(** Calling the object behind a reference, and calling a member by name. *)
Definition call_object (heap : list PyObj) (ref : nat) : signature.Callable :=
  match heap !! ref with
  | Some (OFunction fn) => f_call fn
  | _ => fun _ => raise TypeError
  end.

Definition call_member (members : list (string * nat)) (heap : list PyObj)
  (name : string) : signature.Callable :=
  match assoc name members with
  | Some ref => call_object heap ref
  | None => fun _ => raise AttributeError
  end.

(** The arity-tagged builders as members of the namespace: the operation
    name is looked up with [getattr], which wants a string. *)
Definition with_op_name {A} (body : string -> A) (raising : A) (op_name : PyVal) : A :=
  match op_name with
  | PStr name => body name
  | _ => raising
  end.

Definition private_functions : list (string * signature.Callable) :=
  [ ("_leaf_op",
     signature.params1 (with_op_name expressions._leaf_op (raise TypeError)));
    ("_unary_op",
     signature.params2
       (with_op_name expressions._unary_op (fun _ => raise TypeError)));
    ("_binary_op",
     signature.params3
       (with_op_name expressions._binary_op (fun _ _ => raise TypeError)));
    ("_ternary_op",
     signature.params4
       (with_op_name expressions._ternary_op (fun _ _ _ => raise TypeError)));
    ("_quaternion_op",
     signature.params5
       (with_op_name expressions._quaternion_op (fun _ _ _ _ => raise TypeError)));
    ("_varargs_op",
     signature.varargs1
       (with_op_name expressions._varargs_op (fun _ => raise TypeError))) ].

(** The module constants, which are not functions. *)
Definition constants : list string :=
  ["UNBOUNDED_ROW"; "UNBOUNDED_RANGE"; "CURRENT_ROW"; "CURRENT_RANGE"].

(** The objects the module defines: its constants, its builders and its
    public functions, with the docstrings [doc_of] gives them. *)
Definition module_heap (doc_of : string -> string) : list PyObj :=
  map (fun _ => OOther) constants ++
  map (fun o => OFunction {| f_doc := doc_of (fst o); f_call := snd o |})
      (private_functions ++ public_functions).

Definition module_members : list (string * nat) :=
  imap (fun ref name => (name, ref))
       (constants ++ map fst (private_functions ++ public_functions)).

(** ** Shapes of calls *)

(** The remote call that ends a [to_timestamp_ltz] call. *)
Definition toTimestampLtz (args : list PyVal) : Invocation :=
  static "toTimestampLtz" args.

(** A call either raises the same exception from every state, or returns
    from every state after the same invocations and allocations. *)
Inductive shape (m : M PyVal) : Prop :=
| shape_raises (exc : PyExc) :
    (forall s, m s = Raise exc) -> shape m
| shape_returns (k : nat) (t : list Invocation) (j : PyVal) :
    (forall s, m s = returns s k t j) -> shape m.

(** The same with one invocation, whose handle is wrapped and returned. *)
Inductive single (m : M PyVal) : Prop :=
| single_raises (exc : PyExc) :
    (forall s, m s = Raise exc) -> single m
| single_returns (how : Access) (op_name : string) (args : list PyVal) :
    (forall s, m s = returns s 0 [mkInvocation how op_name args]
                       (JExpression how op_name args)) ->
    single m.

(** The one-invocation rule as the specification words it: every call of a
    public function that returns has performed exactly one invocation of a
    remote factory operation. *)
Definition one_invocation_per_call : Prop :=
  forall name f pos s w s',
    In (name, f) public_functions ->
    f pos s = Ok (w, s') ->
    exists i, emitted s s' [i].

(** ** Conventions the module follows *)

(** The camel-case spelling of a Python name: an underscore is dropped and
    the letter after it is capitalized, so a trailing underscore is just
    dropped. *)
Definition upper (c : Ascii.ascii) : Ascii.ascii :=
  let n := Ascii.nat_of_ascii c in
  if (97 <=? n)%nat && (n <=? 122)%nat then Ascii.ascii_of_nat (n - 32) else c.

Fixpoint camel (capitalize : bool) (name : string) : string :=
  match name with
  | EmptyString => EmptyString
  | String c rest =>
      if Ascii.eqb c "_"%char then camel true rest
      else String (if capitalize then upper c else c) (camel false rest)
  end.

Definition camel_case (name : string) : string := camel false name.

(** The outcome of a call that makes at most one invocation: it raises an
    exception that satisfies [Q], or returns the wrapped handle of one
    invocation that satisfies [P], from every state alike. *)
Inductive outcome (Q : PyExc -> Prop) (P : Access -> string -> list PyVal -> Prop)
  (m : M PyVal) : Prop :=
| outcome_raises (exc : PyExc) :
    (forall s, m s = Raise exc) -> Q exc -> outcome Q P m
| outcome_returns (how : Access) (op_name : string) (args : list PyVal) :
    (forall s, m s = returns s 0 [mkInvocation how op_name args]
                       (JExpression how op_name args)) ->
    P how op_name args ->
    outcome Q P m.

(** The numbers of positional arguments the [def] of each public function
    admits: at least [fst], at most [snd] when there is a bound. *)
Definition parameters : list (string * (nat * option nat)) :=
  [ ("col", (1, Some 1)); ("lit", (1, Some 2)); ("range_", (2, Some 2));
    ("and_", (2, None)); ("or_", (2, None)); ("not_", (1, Some 1));
    ("current_database", (0, Some 0)); ("current_date", (0, Some 0));
    ("current_time", (0, Some 0)); ("current_timestamp", (0, Some 0));
    ("current_watermark", (1, Some 1)); ("local_time", (0, Some 0));
    ("local_timestamp", (0, Some 0)); ("to_date", (1, Some 2));
    ("to_timestamp", (1, Some 2)); ("to_timestamp_ltz", (0, None));
    ("temporal_overlaps", (4, Some 4)); ("date_format", (2, Some 2));
    ("timestamp_diff", (3, Some 3)); ("convert_tz", (3, Some 3));
    ("from_unixtime", (1, Some 2)); ("unix_timestamp", (0, Some 2));
    ("array", (1, None)); ("row", (1, None)); ("map_", (2, None));
    ("map_from_arrays", (2, Some 2)); ("object_of", (1, None));
    ("row_interval", (1, Some 1)); ("pi", (0, Some 0)); ("e", (0, Some 0));
    ("rand", (0, Some 1)); ("rand_integer", (1, Some 2));
    ("atan2", (2, Some 2)); ("negative", (1, Some 1)); ("concat", (1, None));
    ("concat_ws", (2, None)); ("uuid", (0, Some 0)); ("null_of", (1, Some 1));
    ("log", (1, Some 2)); ("source_watermark", (0, Some 0));
    ("if_then_else", (3, Some 3)); ("coalesce", (0, None));
    ("with_all_columns", (0, Some 0)); ("with_columns", (1, None));
    ("without_columns", (1, None)); ("json", (1, Some 1));
    ("json_string", (1, Some 1)); ("json_object", (0, None));
    ("json_object_agg", (3, Some 3)); ("json_array", (0, None));
    ("json_array_agg", (2, Some 2)); ("lag", (1, Some 3));
    ("lead", (1, Some 3)); ("call", (1, None)); ("call_sql", (1, Some 1)) ].

Definition admits (name : string) (n : nat) : bool :=
  match assoc name parameters with
  | Some (least, Some most) => (least <=? n)%nat && (n <=? most)%nat
  | Some (least, None) => (least <=? n)%nat
  | None => false
  end.


(** The public functions that pack their variable arguments into one
    trailing array, with the number of operands that come before it. *)
Definition packing : list (string * nat) :=
  [ ("and_", 2); ("or_", 2); ("map_", 2); ("concat_ws", 2);
    ("array", 1); ("row", 1); ("concat", 1); ("with_columns", 1);
    ("without_columns", 1); ("coalesce", 0) ].

(** Operands as a flat sequence: the elements of an array in its place. *)
Definition unpack (operand : PyVal) : list PyVal :=
  match operand with
  | JArray elems => elems
  | _ => [operand]
  end.

Definition flatten (args : list PyVal) : list PyVal := flat_map unpack args.

(** A plain operand: a Python scalar, or a wrapper around the handle of an
    expression. *)
Definition plain (v : PyVal) : Prop :=
  match v with
  | PBool _ | PInt _ | PStr _ => True
  | PExpression _ (JExpression _ _ _) => True
  | _ => False
  end.

(** Operands the module supplies itself when the caller leaves a parameter
    with a default out: the offset 1 of [lag] and [lead], and the on-null
    policy of [json_object] and [json_array]. *)
Definition supplied_defaults (name : string) (pos : list PyVal) : list PyVal :=
  if (String.eqb name "lag" || String.eqb name "lead")
     && (length pos =? 1)%nat
  then [PInt 1]
  else if String.eqb name "json_object" && (length pos =? 0)%nat
  then [JJsonOnNull NULL]
  else if String.eqb name "json_array" && (length pos =? 0)%nat
  then [JJsonOnNull ABSENT]
  else [].

(** The number of public names of the namespace that are bound to [ref]. *)
Definition public_bindings (members : list (string * nat)) (ref : nat) : nat :=
  length (List.filter (fun o => (snd o =? ref)%nat && negb (startswith (fst o) "_"))
                 members).

(** [n] version markers in a row. *)
Fixpoint markers (n : nat) (version : string) : string :=
  match n with
  | O => EmptyString
  | S n' => (versionadded version ++ markers n' version)%string
  end.

(** How the operation behind a public function is named and reached: by a
    static call under the camel-case name, or, for [call] on a function
    wrapper, by reflection on "apiCall". *)
Definition named (name : string) (pos : list PyVal) (how : Access)
  (op_name : string) : Prop :=
  (how = Static /\ op_name = camel_case name) \/
  (name = "call" /\ (exists udf rest, pos = PUdf udf :: rest) /\
   how = Reflective /\ op_name = "apiCall").

(** The argument a translating function converts before the remote call:
    its position, the values the conversion accepts and the exception a
    value of another class ends in.  The data type of [lit] is optional, so
    [None] is accepted there. *)
Definition is_data_type (v : PyVal) : bool :=
  match v with PDataType _ => true | _ => false end.

Definition is_data_type_or_none (v : PyVal) : bool :=
  match v with PDataType _ | PNone => true | _ => false end.

Definition is_time_point_unit (v : PyVal) : bool :=
  match v with PTimePointUnit _ => true | _ => false end.

Definition is_json_on_null (v : PyVal) : bool :=
  match v with PJsonOnNull _ => true | _ => false end.

Definition is_str_or_udf (v : PyVal) : bool :=
  match v with PStr _ | PUdf _ => true | _ => false end.

Definition translated : list (string * (nat * (PyVal -> bool) * PyExc)) :=
  [ ("lit", (1, is_data_type_or_none, TypeError));
    ("null_of", (0, is_data_type, TypeError));
    ("timestamp_diff", (0, is_time_point_unit, AttributeError));
    ("json_object", (0, is_json_on_null, AttributeError));
    ("json_object_agg", (0, is_json_on_null, AttributeError));
    ("json_array", (0, is_json_on_null, AttributeError));
    ("json_array_agg", (0, is_json_on_null, AttributeError));
    ("call", (0, is_str_or_udf, AttributeError)) ].

(** A value Python code holds: a scalar, [None], a type descriptor, an enum
    value, a function wrapper, or an expression wrapper around the handle of
    an expression. *)
Definition python_value (v : PyVal) : Prop :=
  match v with
  | PNone | PBool _ | PInt _ | PStr _ | PDataType _ | PJsonOnNull _
  | PTimePointUnit _ | PUdf _ => True
  | PExpression _ (JExpression _ _ _) => True
  | _ => False
  end.




(** What crosses the bridge in place of an argument a function translates. *)
Definition translate (v : PyVal) : PyVal :=
  match v with
  | PDataType name => JDataType name
  | PJsonOnNull p => JJsonOnNull p
  | PTimePointUnit name => JTimePointUnit name
  | PUdf udf => JFunctionDefinition udf
  | _ => v
  end.

(** * Properties *)

Import expressions.

(** Runs a call on a symbolic state and compares the outcome. *)
Ltac run_call :=
  intros;
  unfold returns, toTimestampLtz, lit_handle, lit_call, static, reflective,
    handle_of;
  cbv -[app Nat.add map _get_java_expression];
  rewrite <- ?app_assoc; try reflexivity.

(** Unfolds a public function and the binding of its parameters, down to
    the arity-tagged builders. *)
Ltac unfold_public :=
  cbv [signature.params0 signature.params1 signature.params2 signature.params3
       signature.params4 signature.params0_1 signature.params0_2
       signature.params1_1 signature.params1_2 signature.varargs0
       signature.varargs1 signature.varargs2 signature.varargs0_1
       col lit range_ and_ or_ not_ current_database current_date current_time
       current_timestamp current_watermark local_time local_timestamp to_date
       to_timestamp temporal_overlaps date_format timestamp_diff convert_tz
       from_unixtime unix_timestamp array row map_ map_from_arrays object_of
       row_interval pi e rand rand_integer atan2 negative concat concat_ws uuid
       null_of log source_watermark if_then_else coalesce with_all_columns
       with_columns without_columns json json_string json_object json_object_agg
       json_array json_array_agg lag lead call call_sql
       _to_java_data_type _to_j_json_on_null _to_j_time_point_unit
       _java_user_defined_function].

(** Case analysis on every argument a branch of the code looks at. *)
Ltac split_cases :=
  repeat (match goal with
          | |- context [match ?x with _ => _ end] => is_var x; destruct x
          end; cbv beta iota).

Ltac close_single :=
  first [ eapply single_raises; intros ?; reflexivity
        | eapply single_returns; intros ?; reflexivity ].

(** ** The shape of every public function *)

Lemma firstn_In {A} (n : nat) (l : list A) (a : A) : In a (firstn n l) -> In a l.
Proof.
  intros Hin. rewrite <- (firstn_skipn n l). apply in_or_app. now left.
Qed.

Lemma single_shape (m : M PyVal) : single m -> shape m.
Proof.
  intros [exc H | how op_name args H].
  - now apply shape_raises with exc.
  - eapply shape_returns. exact H.
Qed.

(** Every public function but [to_timestamp_ltz] performs one invocation
    and wraps its handle, or raises before it reaches the gateway. *)
Lemma public_single (name : string) (f : signature.Callable) (pos : list PyVal) :
  In (name, f) public_functions ->
  name <> "to_timestamp_ltz" ->
  single (f pos).
Proof.
  intros Hin Hne. cbv [public_functions In] in Hin.
  repeat (destruct Hin as [Hin | Hin];
          [injection Hin as <- <-; try congruence;
           unfold_public; split_cases; close_single |]).
  destruct Hin.
Qed.

(** The table binds "to_timestamp_ltz" to one function only. *)
Lemma to_timestamp_ltz_entry (f : signature.Callable) :
  In ("to_timestamp_ltz", f) public_functions ->
  f = signature.varargs0 to_timestamp_ltz.
Proof.
  intros Hin. cbv [public_functions In] in Hin.
  repeat (destruct Hin as [Hin | Hin];
          [first [discriminate Hin | now injection Hin as <-] |]).
  destruct Hin.
Qed.

(** [to_timestamp_ltz] on one to three arguments: one "lit" per argument,
    then "toTimestampLtz" on the handles of the literals. *)
Lemma to_timestamp_ltz_supported (args : list PyVal) (s : State) :
  1 <= length args <= 3 ->
  to_timestamp_ltz args s =
    returns s (length args)
      (map lit_call args ++ [toTimestampLtz (map lit_handle args)])
      (handle_of (toTimestampLtz (map lit_handle args))).
Proof.
  intros Hlen.
  destruct args as [| a0 [| a1 [| a2 [| a3 rest]]]]; cbn in Hlen; try lia;
    run_call.
Qed.

(** On any argument list that is not empty the call returns; the last
    branch takes the first three arguments and leaves the others out. *)
Lemma to_timestamp_ltz_returns (args : list PyVal) (s : State) :
  args <> [] ->
  to_timestamp_ltz args s =
    returns s (length (firstn 3 args))
      (map lit_call (firstn 3 args)
         ++ [toTimestampLtz (map lit_handle (firstn 3 args))])
      (handle_of (toTimestampLtz (map lit_handle (firstn 3 args)))).
Proof.
  intros Hne.
  destruct args as [| a0 [| a1 [| a2 [| a3 rest]]]]; try congruence; run_call.
Qed.

(** Without arguments the first subscript fails. *)
Lemma to_timestamp_ltz_no_argument (s : State) :
  to_timestamp_ltz [] s = Raise IndexError.
Proof. reflexivity. Qed.

Lemma to_timestamp_ltz_beyond_three (a0 a1 a2 a3 : PyVal) (rest : list PyVal)
  (s : State) :
  to_timestamp_ltz (a0 :: a1 :: a2 :: a3 :: rest) s =
  to_timestamp_ltz [a0; a1; a2] s.
Proof. reflexivity. Qed.

Lemma to_timestamp_ltz_shape (args : list PyVal) : shape (to_timestamp_ltz args).
Proof.
  destruct args as [| a0 [| a1 [| a2 rest]]].
  - apply shape_raises with IndexError. intros s. reflexivity.
  - eapply shape_returns. intros s.
    now apply (to_timestamp_ltz_supported [a0] s); cbn; lia.
  - eapply shape_returns. intros s.
    now apply (to_timestamp_ltz_supported [a0; a1] s); cbn; lia.
  - eapply shape_returns. intros s.
    transitivity (to_timestamp_ltz [a0; a1; a2] s).
    + destruct rest; reflexivity.
    + apply (to_timestamp_ltz_supported [a0; a1; a2] s); cbn; lia.
Qed.

Lemma public_shape (name : string) (f : signature.Callable) (pos : list PyVal) :
  In (name, f) public_functions -> shape (f pos).
Proof.
  intros Hin. destruct (String.eqb_spec name "to_timestamp_ltz") as [-> | Hne].
  - rewrite (to_timestamp_ltz_entry f Hin). apply to_timestamp_ltz_shape.
  - apply single_shape. now apply public_single with name.
Qed.

Lemma emitted_unique (s s' : State) (t t' : list Invocation) :
  emitted s s' t -> emitted s s' t' -> t = t'.
Proof.
  unfold emitted. intros H H'. rewrite H in H'. now apply app_inv_head in H'.
Qed.

Lemma returns_inv (s : State) (k : nat) (t : list Invocation) (j w : PyVal)
  (s' : State) :
  returns s k t j = Ok (w, s') ->
  w = PExpression (k + py_next s) j /\
  emitted s s' t /\
  py_next s' = S (k + py_next s).
Proof.
  unfold returns, emitted. intros H. injection H as <- <-. now cbn.
Qed.

(** ** Arity dispatch of [to_timestamp_ltz] *)

(** C1: [to_timestamp_ltz] with one, two and three arguments invokes the
    remote operation "toTimestampLtz" as a unary, a binary and a ternary
    call.  The operands are the literal handles of the Python arguments, in
    the order of the arguments, and calls of different argument counts are
    different invocations whatever the arguments are. *)
Theorem to_timestamp_ltz_arity_dispatch (s : State) (a b c : PyVal) :
  py_call "to_timestamp_ltz" [a] s =
    returns s 1 [lit_call a; toTimestampLtz [lit_handle a]]
      (handle_of (toTimestampLtz [lit_handle a])) /\
  py_call "to_timestamp_ltz" [a; b] s =
    returns s 2
      [lit_call a; lit_call b; toTimestampLtz [lit_handle a; lit_handle b]]
      (handle_of (toTimestampLtz [lit_handle a; lit_handle b])) /\
  py_call "to_timestamp_ltz" [a; b; c] s =
    returns s 3
      [lit_call a; lit_call b; lit_call c;
       toTimestampLtz [lit_handle a; lit_handle b; lit_handle c]]
      (handle_of (toTimestampLtz [lit_handle a; lit_handle b; lit_handle c])) /\
  (forall x y z u v w : PyVal,
      toTimestampLtz [x] <> toTimestampLtz [y; z] /\
      toTimestampLtz [x] <> toTimestampLtz [u; v; w] /\
      toTimestampLtz [y; z] <> toTimestampLtz [u; v; w]).
Proof.
  split; [| split; [| split]]; try solve [run_call].
  intros x y z u v w. unfold toTimestampLtz, static.
  split; [| split]; discriminate.
Qed.

(** ** JSON construction *)

(** C2: [json_object] and [json_array] pass the translated on-null policy
    as the first operand of "jsonObject" / "jsonArray", followed by the
    value operands in order; without values the remote call receives the
    policy operand alone, also when the policy is left to its default. *)
Theorem json_policy_operand_first (s : State) (p : JsonOnNull) (args : list PyVal) :
  py_call "json_object" (PJsonOnNull p :: args) s =
    returns s 0
      [static "jsonObject" (JJsonOnNull p :: map _get_java_expression args)]
      (handle_of (static "jsonObject"
                    (JJsonOnNull p :: map _get_java_expression args))) /\
  py_call "json_array" (PJsonOnNull p :: args) s =
    returns s 0
      [static "jsonArray" (JJsonOnNull p :: map _get_java_expression args)]
      (handle_of (static "jsonArray"
                    (JJsonOnNull p :: map _get_java_expression args))) /\
  py_call "json_object" [PJsonOnNull p] s =
    returns s 0 [static "jsonObject" [JJsonOnNull p]]
      (handle_of (static "jsonObject" [JJsonOnNull p])) /\
  py_call "json_array" [PJsonOnNull p] s =
    returns s 0 [static "jsonArray" [JJsonOnNull p]]
      (handle_of (static "jsonArray" [JJsonOnNull p])) /\
  (exists d, py_call "json_object" [] s =
               returns s 0 [static "jsonObject" [JJsonOnNull d]]
                 (handle_of (static "jsonObject" [JJsonOnNull d]))) /\
  (exists d, py_call "json_array" [] s =
               returns s 0 [static "jsonArray" [JJsonOnNull d]]
                 (handle_of (static "jsonArray" [JJsonOnNull d]))).
Proof.
  repeat split; try run_call.
  - exists NULL. run_call.
  - exists ABSENT. run_call.
Qed.

(** C10: without arguments [json_object] takes [JsonOnNull.NULL] and
    [json_array] takes [JsonOnNull.ABSENT] as the on-null policy, so the two
    remote calls carry different policy operands. *)
Theorem json_default_policies (s : State) :
  py_call "json_object" [] s =
    returns s 0 [static "jsonObject" [JJsonOnNull NULL]]
      (handle_of (static "jsonObject" [JJsonOnNull NULL])) /\
  py_call "json_array" [] s =
    returns s 0 [static "jsonArray" [JJsonOnNull ABSENT]]
      (handle_of (static "jsonArray" [JJsonOnNull ABSENT])) /\
  JJsonOnNull NULL <> JJsonOnNull ABSENT.
Proof. split; [run_call | split; [run_call | discriminate]]. Qed.

(** ** User-defined function calls *)

(** C3: [call] with a string goes through the name-based entry point
    "call" of the factory, [call] with a user-defined-function wrapper goes
    through "apiCall", reached by reflection.  Either call performs that one
    invocation only: no invocation of a string call is "apiCall" and no
    invocation of a function-object call is "call". *)
Theorem call_routes_by_kind (s : State) (name : string) (udf : nat) (args : list PyVal) :
  py_call "call" (PStr name :: args) s =
    returns s 0
      [static "call" [PStr name; JArray (map _get_java_expression args)]]
      (handle_of (static "call"
                    [PStr name; JArray (map _get_java_expression args)])) /\
  py_call "call" (PUdf udf :: args) s =
    returns s 0
      [reflective "apiCall"
         [JFunctionDefinition udf; JArray (map _get_java_expression args)]]
      (handle_of (reflective "apiCall"
                    [JFunctionDefinition udf;
                     JArray (map _get_java_expression args)])) /\
  (forall w s' t,
      py_call "call" (PStr name :: args) s = Ok (w, s') ->
      emitted s s' t ->
      Forall (fun i => op i <> "apiCall") t) /\
  (forall w s' t,
      py_call "call" (PUdf udf :: args) s = Ok (w, s') ->
      emitted s s' t ->
      Forall (fun i => op i <> "call") t).
Proof.
  assert (py_call "call" (PStr name :: args) s =
          returns s 0
            [static "call" [PStr name; JArray (map _get_java_expression args)]]
            (handle_of (static "call"
                          [PStr name; JArray (map _get_java_expression args)])))
    as Hname by run_call.
  assert (py_call "call" (PUdf udf :: args) s =
          returns s 0
            [reflective "apiCall"
               [JFunctionDefinition udf; JArray (map _get_java_expression args)]]
            (handle_of (reflective "apiCall"
                          [JFunctionDefinition udf;
                           JArray (map _get_java_expression args)])))
    as Hudf by run_call.
  split; [exact Hname |]. split; [exact Hudf |]. split.
  - intros w s' t Hrun Ht. rewrite Hname in Hrun.
    apply returns_inv in Hrun as (_ & Hemitted & _).
    rewrite (emitted_unique _ _ _ _ Ht Hemitted).
    constructor; [cbn; discriminate | constructor].
  - intros w s' t Hrun Ht. rewrite Hudf in Hrun.
    apply returns_inv in Hrun as (_ & Hemitted & _).
    rewrite (emitted_unique _ _ _ _ Ht Hemitted).
    constructor; [cbn; discriminate | constructor].
Qed.

Lemma call_routes_by_kind_witness :
  Forall (fun i => op i <> "apiCall")
         [static "call" [PStr "my_udf"; JArray [PInt 1]]].
Proof.
  refine (proj1 (proj2 (proj2 (call_routes_by_kind init "my_udf" 0 [PInt 1])))
            (PExpression 0 (handle_of (static "call" [PStr "my_udf"; JArray [PInt 1]])))
            {| trace := [static "call" [PStr "my_udf"; JArray [PInt 1]]];
               py_next := 1 |}
            _ _ _).
  - reflexivity.
  - reflexivity.
Defined.

(** An object that is neither a string nor a function wrapper has no
    [_java_user_defined_function]; the call fails before any invocation. *)
Lemma call_rejects_other_objects (s : State) (f : PyVal) (args : list PyVal) :
  (forall name, f <> PStr name) ->
  (forall udf, f <> PUdf udf) ->
  py_call "call" (f :: args) s = Raise AttributeError.
Proof.
  intros Hstr Hudf. destruct f; try reflexivity; exfalso.
  - eapply Hstr. reflexivity.
  - eapply Hudf. reflexivity.
Qed.

(** ** Logical connectives *)

(** C4: [and_] with three conditions invokes "and" with three operands:
    the first two conditions and an array that holds the third.  Nothing is
    evaluated locally: Python booleans cross the bridge as they are. *)
Theorem and_three_conditions (s : State) (p0 p1 p2 : PyVal) (b0 b1 b2 : bool) :
  py_call "and_" [p0; p1; p2] s =
    returns s 0
      [static "and" [_get_java_expression p0; _get_java_expression p1;
                     JArray [_get_java_expression p2]]]
      (handle_of (static "and"
                    [_get_java_expression p0; _get_java_expression p1;
                     JArray [_get_java_expression p2]])) /\
  py_call "and_" [PBool b0; PBool b1; PBool b2] s =
    returns s 0
      [static "and" [PBool b0; PBool b1; JArray [PBool b2]]]
      (handle_of (static "and" [PBool b0; PBool b1; JArray [PBool b2]])).
Proof. repeat split; run_call. Qed.

(** [or_] has the same shape. *)
Lemma or_three_conditions (s : State) (p0 p1 p2 : PyVal) :
  py_call "or_" [p0; p1; p2] s =
    returns s 0
      [static "or" [_get_java_expression p0; _get_java_expression p1;
                    JArray [_get_java_expression p2]]]
      (handle_of (static "or"
                    [_get_java_expression p0; _get_java_expression p1;
                     JArray [_get_java_expression p2]])).
Proof. run_call. Qed.

(** ** Operand order *)

(** C8: with the optional second argument supplied, [rand_integer(bound,
    seed)] invokes "randInteger" with the seed first and the bound second,
    and [log(v, base)] invokes "log" with the base first and the value
    second. *)
Theorem optional_argument_goes_first (s : State) (x y : PyVal) :
  y <> PNone ->
  py_call "rand_integer" [x; y] s =
    returns s 0
      [static "randInteger" [_get_java_expression y; _get_java_expression x]]
      (handle_of (static "randInteger"
                    [_get_java_expression y; _get_java_expression x])) /\
  py_call "log" [x; y] s =
    returns s 0
      [static "log" [_get_java_expression y; _get_java_expression x]]
      (handle_of (static "log"
                    [_get_java_expression y; _get_java_expression x])).
Proof.
  intros Hy. destruct y; try congruence; split; run_call.
Qed.

Lemma optional_argument_goes_first_witness :
  PInt 42 <> PNone /\
  py_call "rand_integer" [PInt 10; PInt 42] init =
    returns init 0 [static "randInteger" [PInt 42; PInt 10]]
      (handle_of (static "randInteger" [PInt 42; PInt 10])) /\
  py_call "log" [PInt 10; PInt 42] init =
    returns init 0 [static "log" [PInt 42; PInt 10]]
      (handle_of (static "log" [PInt 42; PInt 10])).
Proof.
  split; [discriminate |].
  apply (optional_argument_goes_first init (PInt 10) (PInt 42)).
  discriminate.
Defined.

(** ** Literal wrapping *)

(** C9: on every argument list [to_timestamp_ltz] passes the arguments it
    hands over through [lit] first, so every operand of "toTimestampLtz" is
    the handle of a literal of an argument, in the order of the arguments
    (all of them when there are at most three); [to_date] and
    [to_timestamp] hand their operands over after plain normalization,
    without a "lit" invocation. *)
Theorem to_timestamp_ltz_wraps_literals (s : State) (args : list PyVal)
  (v format : PyVal) :
  args <> [] ->
  format <> PNone ->
  py_call "to_timestamp_ltz" args s =
    returns s (length (firstn 3 args))
      (map lit_call (firstn 3 args)
         ++ [toTimestampLtz (map lit_handle (firstn 3 args))])
      (handle_of (toTimestampLtz (map lit_handle (firstn 3 args)))) /\
  (length args <= 3 -> firstn 3 args = args) /\
  Forall (fun operand => exists a, In a args /\ operand = lit_handle a)
         (operands (toTimestampLtz (map lit_handle (firstn 3 args)))) /\
  py_call "to_date" [v] s =
    returns s 0 [static "toDate" [_get_java_expression v]]
      (handle_of (static "toDate" [_get_java_expression v])) /\
  py_call "to_date" [v; format] s =
    returns s 0
      [static "toDate" [_get_java_expression v; _get_java_expression format]]
      (handle_of (static "toDate"
                    [_get_java_expression v; _get_java_expression format])) /\
  py_call "to_timestamp" [v] s =
    returns s 0 [static "toTimestamp" [_get_java_expression v]]
      (handle_of (static "toTimestamp" [_get_java_expression v])) /\
  py_call "to_timestamp" [v; format] s =
    returns s 0
      [static "toTimestamp"
         [_get_java_expression v; _get_java_expression format]]
      (handle_of (static "toTimestamp"
                    [_get_java_expression v; _get_java_expression format])).
Proof.
  intros Hargs Hformat.
  split; [exact (to_timestamp_ltz_returns args s Hargs) |].
  split; [apply firstn_all2 |].
  split.
  { cbn [toTimestampLtz static operands]. apply List.Forall_forall.
    intros operand Hin. apply in_map_iff in Hin as (a & <- & Ha).
    exists a. split; [| reflexivity]. now apply firstn_In with 3. }
  destruct format; try congruence; repeat split; run_call.
Qed.

Lemma to_timestamp_ltz_wraps_literals_witness :
  let args := [PStr "2023-01-01 00:00:00"; PStr "yyyy-MM-dd HH:mm:ss"; PStr "UTC"] in
  py_call "to_timestamp_ltz" args init =
    returns init 3
      (map lit_call args ++ [toTimestampLtz (map lit_handle args)])
      (handle_of (toTimestampLtz (map lit_handle args))).
Proof.
  intros args.
  refine (proj1 (to_timestamp_ltz_wraps_literals init args (PStr "2023-01-01")
                   (PStr "yyyy-MM-dd") _ _)).
  - discriminate.
  - discriminate.
Defined.

(** ** One round trip per call *)

(** C5, as the specification words it, fails: [to_timestamp_ltz(100)]
    returns after two invocations, "lit" and "toTimestampLtz". *)
Lemma to_timestamp_ltz_two_invocations : ~ one_invocation_per_call.
Proof.
  intros H.
  destruct (H "to_timestamp_ltz" (signature.varargs0 to_timestamp_ltz)
              [PInt 100] init
              (PExpression 1 (handle_of (toTimestampLtz [lit_handle (PInt 100)])))
              {| trace := [lit_call (PInt 100);
                           toTimestampLtz [lit_handle (PInt 100)]];
                 py_next := 2 |})
    as [i Hi].
  - cbv [public_functions In]. do 15 right. left. reflexivity.
  - reflexivity.
  - unfold emitted in Hi. cbn in Hi. discriminate Hi.
Qed.

(** C5, amended: a call of a public function other than [to_timestamp_ltz]
    that returns has performed exactly one invocation of a remote factory
    operation; a call of [to_timestamp_ltz] with one, two or three arguments
    has performed one "lit" invocation per argument and then one
    "toTimestampLtz" invocation. *)
Theorem one_invocation_unless_literals_wrapped
  (name : string) (f : signature.Callable) (pos : list PyVal)
  (s : State) (w : PyVal) (s' : State) :
  In (name, f) public_functions ->
  f pos s = Ok (w, s') ->
  (name <> "to_timestamp_ltz" -> exists i, emitted s s' [i]) /\
  (name = "to_timestamp_ltz" -> 1 <= length pos <= 3 ->
   emitted s s' (map lit_call pos ++ [toTimestampLtz (map lit_handle pos)]) /\
   length (map lit_call pos ++ [toTimestampLtz (map lit_handle pos)])
     = S (length pos)).
Proof.
  intros Hin Hrun. split.
  - intros Hne. destruct (public_single name f pos Hin Hne) as [exc H | how o args H].
    + rewrite H in Hrun. discriminate Hrun.
    + rewrite H in Hrun. apply returns_inv in Hrun as (_ & Hemitted & _).
      now exists (mkInvocation how o args).
  - intros -> Hlen. rewrite (to_timestamp_ltz_entry f Hin) in Hrun.
    unfold signature.varargs0 in Hrun.
    rewrite (to_timestamp_ltz_supported pos s Hlen) in Hrun.
    apply returns_inv in Hrun as (_ & Hemitted & _). split; [assumption |].
    rewrite length_app, length_map. cbn. lia.
Qed.

Lemma one_invocation_unless_literals_wrapped_witness :
  (exists i,
      emitted init {| trace := [static "col" [PStr "key"]]; py_next := 1 |} [i]) /\
  emitted init
    {| trace := [lit_call (PInt 100); lit_call (PInt 0);
                 toTimestampLtz [lit_handle (PInt 100); lit_handle (PInt 0)]];
       py_next := 3 |}
    [lit_call (PInt 100); lit_call (PInt 0);
     toTimestampLtz [lit_handle (PInt 100); lit_handle (PInt 0)]].
Proof.
  split.
  - refine (proj1 (one_invocation_unless_literals_wrapped
                     "col" (signature.params1 col) [PStr "key"] init
                     (PExpression 0 (handle_of (static "col" [PStr "key"])))
                     {| trace := [static "col" [PStr "key"]]; py_next := 1 |}
                     _ _) _).
    + cbv [public_functions In]. left. reflexivity.
    + reflexivity.
    + discriminate.
  - refine (proj1 (proj2 (one_invocation_unless_literals_wrapped
                     "to_timestamp_ltz" (signature.varargs0 to_timestamp_ltz)
                     [PInt 100; PInt 0] init
                     (PExpression 2
                        (handle_of (toTimestampLtz
                                      [lit_handle (PInt 100); lit_handle (PInt 0)])))
                     {| trace := [lit_call (PInt 100); lit_call (PInt 0);
                                  toTimestampLtz
                                    [lit_handle (PInt 100); lit_handle (PInt 0)]];
                        py_next := 3 |}
                     _ _) _ _)).
    + cbv [public_functions In]. do 15 right. left. reflexivity.
    + reflexivity.
    + reflexivity.
    + cbn. lia.
Defined.

(** ** Repeated construction *)

(** C6: calling a public function twice on the same arguments yields two
    wrappers that are different objects around the same handle, and both
    calls marshal the same invocations: same operation names, same operands,
    same order. *)
Theorem repeated_call_same_marshalling
  (name : string) (f : signature.Callable) (pos : list PyVal)
  (s : State) (w1 : PyVal) (s1 : State) :
  In (name, f) public_functions ->
  f pos s = Ok (w1, s1) ->
  exists (w2 : PyVal) (s2 : State) (t : list Invocation),
    f pos s1 = Ok (w2, s2) /\
    emitted s s1 t /\
    emitted s1 s2 t /\
    _get_java_expression w1 = _get_java_expression w2 /\
    w1 <> w2.
Proof.
  intros Hin Hrun. destruct (public_shape name f pos Hin) as [exc H | k t j H].
  - rewrite H in Hrun. discriminate Hrun.
  - rewrite H in Hrun. apply returns_inv in Hrun as (-> & Hemitted & Hnext).
    exists (PExpression (k + py_next s1) j),
           {| trace := trace s1 ++ t; py_next := S (k + py_next s1) |}, t.
    split; [apply H |]. split; [assumption |]. split; [reflexivity |].
    split; [reflexivity |].
    intros Heq. injection Heq as Heq. lia.
Qed.

Lemma repeated_call_same_marshalling_witness :
  exists (w2 : PyVal) (s2 : State) (t : list Invocation),
    signature.varargs2 and_ [PBool true; PBool false; PBool true]
      {| trace := [static "and" [PBool true; PBool false; JArray [PBool true]]];
         py_next := 1 |} = Ok (w2, s2) /\
    emitted init
      {| trace := [static "and" [PBool true; PBool false; JArray [PBool true]]];
         py_next := 1 |} t /\
    emitted
      {| trace := [static "and" [PBool true; PBool false; JArray [PBool true]]];
         py_next := 1 |} s2 t /\
    _get_java_expression
      (PExpression 0
         (handle_of (static "and" [PBool true; PBool false; JArray [PBool true]])))
      = _get_java_expression w2 /\
    PExpression 0
      (handle_of (static "and" [PBool true; PBool false; JArray [PBool true]]))
      <> w2.
Proof.
  refine (repeated_call_same_marshalling
            "and_" (signature.varargs2 and_)
            [PBool true; PBool false; PBool true] init _ _ _ _).
  - cbv [public_functions In]. do 3 right. left. reflexivity.
  - reflexivity.
Defined.

(** ** The documentation pass *)



Lemma add_version_doc_lookup_ne (heap : list PyObj) (f ref : nat) (version : string) :
  f <> ref -> add_version_doc f version heap !! ref = heap !! ref.
Proof.
  intros Hne. unfold add_version_doc.
  destruct (heap !! f) as [[fn|]|]; try reflexivity.
  now apply list_lookup_insert_ne.
Qed.

Lemma add_version_doc_lookup_eq (heap : list PyObj) (f : nat) (version : string) (fn : Function) :
  heap !! f = Some (OFunction fn) ->
  add_version_doc f version heap !! f =
    Some (OFunction {| f_doc := (f_doc fn ++ versionadded version)%string;
                       f_call := f_call fn |}).
Proof.
  intros Hf. unfold add_version_doc. rewrite Hf.
  apply list_lookup_insert_eq. eapply lookup_lt_Some; eassumption.
Qed.

Lemma add_version_doc_call (heap : list PyObj) (f ref : nat) (version : string) :
  call_object (add_version_doc f version heap) ref = call_object heap ref.
Proof.
  unfold call_object. destruct (decide (f = ref)) as [-> | Hne].
  - destruct (heap !! ref) as [[fn|]|] eqn:Href.
    + now rewrite (add_version_doc_lookup_eq _ _ _ _ Href).
    + unfold add_version_doc. now rewrite Href, Href.
    + unfold add_version_doc. now rewrite Href, Href.
  - now rewrite add_version_doc_lookup_ne.
Qed.

Lemma add_version_doc_isfunction (heap : list PyObj) (f ref : nat) (version : string) :
  isfunction (add_version_doc f version heap) ref = isfunction heap ref.
Proof.
  unfold isfunction. destruct (decide (f = ref)) as [-> | Hne].
  - destruct (heap !! ref) as [[fn|]|] eqn:Href.
    + now rewrite (add_version_doc_lookup_eq _ _ _ _ Href).
    + unfold add_version_doc. now rewrite Href, Href.
    + unfold add_version_doc. now rewrite Href, Href.
  - now rewrite add_version_doc_lookup_ne.
Qed.

Lemma add_version_doc_marks (heap : list PyObj) (ref : nat) :
  isfunction heap ref = true -> marked (add_version_doc ref "1.12.0" heap) ref.
Proof.
  unfold isfunction. destruct (heap !! ref) as [[fn|]|] eqn:Href; try discriminate.
  intros _. eexists. split.
  - apply add_version_doc_lookup_eq, Href.
  - now exists (f_doc fn).
Qed.

Lemma annotate_call heap o ref : call_object (annotate heap o) ref = call_object heap ref.
Proof.
  unfold annotate. destruct (_ && _); [apply add_version_doc_call | reflexivity].
Qed.

Lemma annotate_isfunction heap o ref : isfunction (annotate heap o) ref = isfunction heap ref.
Proof.
  unfold annotate. destruct (_ && _); [apply add_version_doc_isfunction | reflexivity].
Qed.

Lemma annotate_keeps_marked heap o ref : marked heap ref -> marked (annotate heap o) ref.
Proof.
  intros (fn & Href & original & Hdoc). unfold annotate.
  destruct (_ && _); [| now exists fn; split; [|exists original]].
  destruct (decide (snd o = ref)) as [-> | Hne].
  - eexists. split; [apply add_version_doc_lookup_eq, Href |].
    now exists (f_doc fn).
  - exists fn. split; [now rewrite add_version_doc_lookup_ne | now exists original].
Qed.

Lemma annotate_marks heap name ref :
  isfunction heap ref = true -> startswith name "_" = false ->
  marked (annotate heap (name, ref)) ref.
Proof.
  intros Hf Hp. unfold annotate. cbn [fst snd]. rewrite Hf, Hp. cbn.
  now apply add_version_doc_marks.
Qed.

Lemma annotate_untouched heap o ref :
  (snd o = ref -> startswith (fst o) "_" = true \/ isfunction heap ref = false) ->
  annotate heap o !! ref = heap !! ref.
Proof.
  intros H. unfold annotate.
  destruct (decide (snd o = ref)) as [Heq | Hne].
  - destruct (H Heq) as [Hp | Hf].
    + rewrite Hp. cbn. now rewrite andb_false_r.
    + subst ref. now rewrite Hf.
  - destruct (_ && _); [now apply add_version_doc_lookup_ne | reflexivity].
Qed.

Lemma pass_call members heap ref :
  call_object (_add_version_doc members heap) ref = call_object heap ref.
Proof.
  unfold _add_version_doc. revert heap.
  induction members as [| o members IH]; intros heap; cbn; [reflexivity |].
  rewrite IH. apply annotate_call.
Qed.

Lemma pass_isfunction members heap ref :
  isfunction (_add_version_doc members heap) ref = isfunction heap ref.
Proof.
  unfold _add_version_doc. revert heap.
  induction members as [| o members IH]; intros heap; cbn; [reflexivity |].
  rewrite IH. apply annotate_isfunction.
Qed.

Lemma pass_keeps_marked members heap ref :
  marked heap ref -> marked (_add_version_doc members heap) ref.
Proof.
  unfold _add_version_doc. revert heap.
  induction members as [| o members IH]; intros heap Hm; cbn; [assumption |].
  apply IH. now apply annotate_keeps_marked.
Qed.

Lemma pass_marks members heap name ref :
  In (name, ref) members ->
  startswith name "_" = false ->
  isfunction heap ref = true ->
  marked (_add_version_doc members heap) ref.
Proof.
  intros Hin Hp. revert heap.
  induction members as [| o members IH]; intros heap Hf; [destruct Hin |].
  destruct Hin as [-> | Hin].
  - change (marked (_add_version_doc members (annotate heap (name, ref))) ref).
    apply pass_keeps_marked. now apply annotate_marks.
  - change (marked (_add_version_doc members (annotate heap o)) ref).
    apply IH; [assumption |]. now rewrite annotate_isfunction.
Qed.

Lemma pass_untouched members heap ref :
  (forall name, In (name, ref) members ->
                startswith name "_" = true \/ isfunction heap ref = false) ->
  _add_version_doc members heap !! ref = heap !! ref.
Proof.
  revert heap.
  induction members as [| o members IH]; intros heap H; [reflexivity |].
  change (_add_version_doc members (annotate heap o) !! ref = heap !! ref).
  rewrite IH.
  - apply annotate_untouched. intros Heq. apply (H (fst o)).
    left. destruct o; cbn in *; now subst.
  - intros name Hin. rewrite annotate_isfunction. apply H. now right.
Qed.

Lemma pass_length members heap : length (_add_version_doc members heap) = length heap.
Proof.
  unfold _add_version_doc. revert heap.
  induction members as [| o members IH]; intros heap; cbn; [reflexivity |].
  rewrite IH. unfold annotate, add_version_doc.
  destruct (_ && _); [| reflexivity].
  destruct (heap !! snd o) as [[fn|]|]; try reflexivity. apply length_insert.
Qed.

(** C7: the pass run when the module is loaded attaches the version marker
    to every function bound to a name without a leading underscore, and
    changes nothing else: calling any member, with any arguments and from
    any state, does the same with and without the pass; no object is added,
    removed or turned into another kind; and an object that is not a
    function bound to a public name is left as it was. *)
Theorem version_doc_pass_frame (members : list (string * nat)) (heap : list PyObj) :
  let heap' := _add_version_doc members heap in
  (forall name ref,
      In (name, ref) members ->
      startswith name "_" = false ->
      isfunction heap ref = true ->
      marked heap' ref) /\
  (forall name pos s,
      call_member members heap' name pos s = call_member members heap name pos s) /\
  length heap' = length heap /\
  (forall ref, isfunction heap' ref = isfunction heap ref) /\
  (forall ref,
      (forall name, In (name, ref) members ->
                    startswith name "_" = true \/ isfunction heap ref = false) ->
      heap' !! ref = heap !! ref).
Proof.
  cbv zeta. split; [| split; [| split; [| split]]].
  - intros name ref. apply pass_marks.
  - intros name pos s. unfold call_member.
    destruct (assoc name members); [| reflexivity]. now rewrite pass_call.
  - apply pass_length.
  - intros ref. apply pass_isfunction.
  - intros ref. apply pass_untouched.
Qed.

Lemma version_doc_pass_frame_witness :
  let heap := module_heap (fun _ => "Creates an expression.") in
  marked (_add_version_doc module_members heap) 10 /\
  call_member module_members (_add_version_doc module_members heap)
    "col" [PStr "key"] init
  = py_call "col" [PStr "key"] init.
Proof.
  intros heap.
  destruct (version_doc_pass_frame module_members heap) as (Hmark & Hcall & _).
  split.
  - apply (Hmark "col" 10).
    + cbv. do 10 right. left. reflexivity.
    + reflexivity.
    + reflexivity.
  - rewrite Hcall. reflexivity.
Defined.

(** In the module itself: every public function is a member, is marked by
    the pass, and is called through the namespace as before. *)
Lemma module_public_functions_after_pass (doc_of : string -> string)
  (name : string) (f : signature.Callable) :
  In (name, f) public_functions ->
  exists ref,
    In (name, ref) module_members /\
    marked (_add_version_doc module_members (module_heap doc_of)) ref /\
    call_member module_members
      (_add_version_doc module_members (module_heap doc_of)) name = f.
Proof.
  intros Hin.
  assert (exists ref, In (name, ref) module_members /\
                      startswith name "_" = false /\
                      isfunction (module_heap doc_of) ref = true /\
                      assoc name module_members = Some ref /\
                      call_object (module_heap doc_of) ref = f)
    as (ref & Hmember & Hpublic & Hfunction & Hassoc & Hcall).
  { cbv [public_functions In] in Hin.
    repeat (destruct Hin as [Hin | Hin];
            [injection Hin as <- <-;
             match goal with
             | |- exists ref, In (?n, ref) _ /\ _ =>
                 let r := eval vm_compute in (assoc n module_members) in
                 match r with
                 | Some ?k => exists k
                 end
             end;
             split; [cbv; repeat (first [left; reflexivity | right]) |];
             repeat split; vm_compute; reflexivity |]).
    destruct Hin. }
  exists ref. split; [assumption |]. split.
  - now apply pass_marks with name.
  - unfold call_member. rewrite Hassoc.
    rewrite pass_call. exact Hcall.
Qed.

(** * Further properties of the module *)

(** Settles a call once its arguments are split into cases: [on_raise]
    proves what is said of the exception, [on_return] what is said of the
    invocation. *)
Ltac classify on_raise on_return :=
  first [ eapply outcome_raises; [intros ?; reflexivity | on_raise]
        | eapply outcome_returns; [intros ?; reflexivity | on_return] ].

Ltac each_public Hin tac :=
  cbv [public_functions In] in Hin;
  repeat (destruct Hin as [Hin | Hin];
          [injection Hin as <- <-; try congruence; tac |]);
  try destruct Hin.

Lemma outcome_weaken (Q Q' : PyExc -> Prop)
  (P P' : Access -> string -> list PyVal -> Prop) (m : M PyVal) :
  (forall exc, Q exc -> Q' exc) ->
  (forall how o args, P how o args -> P' how o args) ->
  outcome Q P m -> outcome Q' P' m.
Proof.
  intros HQ HP [exc H Hexc | how o args H Hargs].
  - apply outcome_raises with exc; auto.
  - apply outcome_returns with how o args; auto.
Qed.

(** ** Names of the remote operations *)

Lemma public_named (name : string) (f : signature.Callable) (pos : list PyVal) :
  In (name, f) public_functions ->
  name <> "to_timestamp_ltz" ->
  outcome (fun _ => True) (fun how o _ => named name pos how o) (f pos).
Proof.
  intros Hin Hne.
  each_public Hin
    ltac:(unfold_public; split_cases;
          classify ltac:(exact I)
                   ltac:(first [ left; split; reflexivity
                               | right; split; [reflexivity |];
                                 split; [eauto |]; split; reflexivity ])).
Qed.

(** X1: the last invocation of a returning call is a static call of the
    method whose name is the camel-case spelling of the Python name (a
    trailing underscore dropped), whatever the number of arguments; the one
    exception is [call] on a function wrapper, which reaches "apiCall" by
    reflection.  Only [to_timestamp_ltz] makes invocations before it, and
    these are static "lit" calls. *)
Theorem remote_operation_is_camel_case
  (name : string) (f : signature.Callable) (pos : list PyVal)
  (s : State) (w : PyVal) (s' : State) :
  In (name, f) public_functions ->
  f pos s = Ok (w, s') ->
  exists (t : list Invocation) (i : Invocation),
    emitted s s' (t ++ [i]) /\
    named name pos (via i) (op i) /\
    Forall (fun l => via l = Static /\ op l = "lit") t /\
    (name <> "to_timestamp_ltz" -> t = []).
Proof.
  intros Hin Hrun.
  destruct (String.eqb_spec name "to_timestamp_ltz") as [-> | Hne].
  - rewrite (to_timestamp_ltz_entry f Hin) in Hrun.
    unfold signature.varargs0 in Hrun.
    destruct pos as [| a0 rest]; [discriminate Hrun |].
    rewrite to_timestamp_ltz_returns in Hrun by discriminate.
    apply returns_inv in Hrun as (_ & Hemitted & _).
    eexists _, _. split; [exact Hemitted |]. split; [now left |].
    split; [| congruence].
    apply List.Forall_forall. intros l Hl.
    apply in_map_iff in Hl as (a & <- & _). now split.
  - destruct (public_named name f pos Hin Hne) as [exc H _ | how o args H Hnamed].
    + rewrite H in Hrun. discriminate Hrun.
    + rewrite H in Hrun. apply returns_inv in Hrun as (_ & Hemitted & _).
      exists [], (mkInvocation how o args).
      split; [exact Hemitted |]. split; [exact Hnamed |]. split; [constructor | reflexivity].
Qed.

Lemma remote_operation_is_camel_case_witness :
  exists (t : list Invocation) (i : Invocation),
    emitted init
      {| trace := [static "jsonObjectAgg" [JJsonOnNull NULL; PStr "k"; PInt 1]];
         py_next := 1 |} (t ++ [i]) /\
    named "json_object_agg" [PJsonOnNull NULL; PStr "k"; PInt 1] (via i) (op i) /\
    Forall (fun l => via l = Static /\ op l = "lit") t /\
    ("json_object_agg" <> "to_timestamp_ltz" -> t = []).
Proof.
  refine (remote_operation_is_camel_case
            "json_object_agg" (signature.params3 json_object_agg)
            [PJsonOnNull NULL; PStr "k"; PInt 1] init
            (PExpression 0
               (handle_of (static "jsonObjectAgg"
                             [JJsonOnNull NULL; PStr "k"; PInt 1])))
            _ _ _).
  - cbv [public_functions In]. do 48 right. left. reflexivity.
  - reflexivity.
Defined.

(** ** What a call returns *)

(** X2: a call that returns hands back a new wrapper, allocated last,
    around the handle of the last invocation it made; it has allocated as
    many wrappers as it made invocations, and the invocations recorded
    before the call are still there, in front of its own. *)
Theorem result_wraps_last_handle
  (name : string) (f : signature.Callable) (pos : list PyVal)
  (s : State) (w : PyVal) (s' : State) :
  In (name, f) public_functions ->
  f pos s = Ok (w, s') ->
  exists (t : list Invocation) (i : Invocation),
    emitted s s' (t ++ [i]) /\
    w = PExpression (length t + py_next s) (handle_of i) /\
    _get_java_expression w = handle_of i /\
    py_next s' = length (t ++ [i]) + py_next s.
Proof.
  intros Hin Hrun.
  destruct (String.eqb_spec name "to_timestamp_ltz") as [-> | Hne].
  - rewrite (to_timestamp_ltz_entry f Hin) in Hrun.
    unfold signature.varargs0 in Hrun.
    destruct pos as [| a0 rest]; [discriminate Hrun |].
    rewrite to_timestamp_ltz_returns in Hrun by discriminate.
    apply returns_inv in Hrun as (-> & Hemitted & Hnext).
    eexists _, _. split; [exact Hemitted |].
    rewrite length_app, length_map. cbn [length].
    split; [reflexivity |]. split; [reflexivity |]. lia.
  - destruct (public_single name f pos Hin Hne) as [exc H | how o args H].
    + rewrite H in Hrun. discriminate Hrun.
    + rewrite H in Hrun. apply returns_inv in Hrun as (-> & Hemitted & Hnext).
      exists [], (mkInvocation how o args).
      split; [exact Hemitted |]. split; [reflexivity |]. split; [reflexivity |].
      cbn. lia.
Qed.

Lemma result_wraps_last_handle_witness :
  exists (t : list Invocation) (i : Invocation),
    emitted init
      {| trace := [lit_call (PInt 100); toTimestampLtz [lit_handle (PInt 100)]];
         py_next := 2 |} (t ++ [i]) /\
    PExpression 1 (handle_of (toTimestampLtz [lit_handle (PInt 100)]))
      = PExpression (length t + 0) (handle_of i) /\
    _get_java_expression
      (PExpression 1 (handle_of (toTimestampLtz [lit_handle (PInt 100)])))
      = handle_of i /\
    2 = length (t ++ [i]) + 0.
Proof.
  refine (result_wraps_last_handle
            "to_timestamp_ltz" (signature.varargs0 to_timestamp_ltz)
            [PInt 100] init _ _ _ _).
  - cbv [public_functions In]. do 15 right. left. reflexivity.
  - reflexivity.
Defined.

(** ** Which calls fail, and how *)





Lemma public_failures (name : string) (f : signature.Callable) (pos : list PyVal) :
  In (name, f) public_functions ->
  name <> "to_timestamp_ltz" ->
  outcome
    (fun exc =>
       admits name (length pos) = true ->
       exists k accepts v,
         assoc name translated = Some (k, accepts, exc) /\
         nth_error pos k = Some v /\ accepts v = false)
    (fun _ _ _ =>
       forall k accepts exc v,
         assoc name translated = Some (k, accepts, exc) ->
         nth_error pos k = Some v -> accepts v = true)
    (f pos).
Proof.
  intros Hin Hne.
  each_public Hin
    ltac:(unfold_public; split_cases;
          classify
            ltac:(first [ discriminate
                        | intros _; eexists _, _, _;
                          split; [reflexivity |]; split; reflexivity ])
            ltac:(let Ht := fresh in
                  let Hn := fresh in
                  intros ? ? ? ? Ht Hn; cbv in Ht;
                  first [ discriminate Ht
                        | injection Ht as <- <- <-; cbn in Hn;
                          first [ discriminate Hn
                                | injection Hn as <-; reflexivity ] ])).
Qed.



(** ** Operands *)

Lemma unpack_plain (v : PyVal) :
  plain v -> unpack (_get_java_expression v) = [_get_java_expression v].
Proof.
  destruct v as [| | | | | | | | id j | | | | | |]; cbn; try tauto.
  destruct j; cbn; tauto.
Qed.

Lemma flatten_plain (l : list PyVal) :
  Forall plain l ->
  flatten (map _get_java_expression l) = map _get_java_expression l.
Proof.
  unfold flatten. induction 1 as [| v l Hv _ IH]; [reflexivity |].
  cbn [map flat_map]. now rewrite IH, unpack_plain.
Qed.

(** Splits the hypothesis that the arguments are plain over the arguments,
    and drops the cases in which one of them is not. *)
Ltac use_plain :=
  repeat match goal with
         | H : Forall plain (_ :: _) |- _ =>
             let Hv := fresh "Hplain" in
             apply List.Forall_cons_iff in H; destruct H as [Hv H]
         | H : Forall plain [] |- _ => clear H
         end;
  repeat match goal with
         | H : plain ?v |- _ =>
             first [ is_var v; fail 1
                   | cbn [plain] in H;
                     first [ contradiction
                           | match type of H with True => clear H end
                           | match type of H with
                             | match ?j with _ => _ end =>
                                 is_var j; destruct j; try contradiction; clear H
                             end ] ]
         end.

Ltac order_holds :=
  first [ unfold flatten, supplied_defaults, to_jarray;
          cbn [flat_map map app length Nat.eqb String.eqb Ascii.eqb Bool.eqb
               orb andb _get_java_expression unpack];
          rewrite ?unpack_plain by assumption;
          cbn [app]; rewrite ?app_nil_r; reflexivity
        | rewrite app_nil_r; apply flatten_plain;
          repeat constructor; assumption ].

Lemma public_order (name : string) (f : signature.Callable) (pos : list PyVal) :
  In (name, f) public_functions ->
  ~ In name ["rand_integer"; "log"; "to_timestamp_ltz"] ->
  Forall plain pos ->
  outcome (fun _ => True)
          (fun _ _ args =>
             flatten args
             = map _get_java_expression pos ++ supplied_defaults name pos)
          (f pos).
Proof.
  intros Hin Hne Hplain.
  each_public Hin
    ltac:(first [ exfalso; apply Hne; cbv; tauto
                | unfold_public; split_cases; use_plain;
                  classify ltac:(exact I) ltac:(order_holds) ]).
Qed.

Lemma public_reversed (name : string) (f : signature.Callable) (pos : list PyVal) :
  In (name, f) public_functions ->
  In name ["rand_integer"; "log"] ->
  Forall plain pos ->
  outcome (fun _ => True)
          (fun _ _ args => flatten args = rev (map _get_java_expression pos))
          (f pos).
Proof.
  intros Hin Hname Hplain.
  each_public Hin
    ltac:(first [ exfalso; cbv [In] in Hname;
                  repeat (destruct Hname as [Hname | Hname];
                          [discriminate Hname |]);
                  exact Hname
                | unfold_public; split_cases; use_plain;
                  classify ltac:(exact I) ltac:(order_holds) ]).
Qed.

(** X3: on plain operands the remote operation receives the arguments in
    the order the caller gave them, the variable part unpacked from its
    array, followed by a default the module supplies ([lag], [lead],
    [json_object], [json_array]); [rand_integer] and [log] are the only
    functions that hand them over in reverse order. *)
Theorem operands_follow_the_arguments
  (name : string) (f : signature.Callable) (pos : list PyVal)
  (s : State) (w : PyVal) (s' : State) :
  In (name, f) public_functions ->
  name <> "to_timestamp_ltz" ->
  Forall plain pos ->
  f pos s = Ok (w, s') ->
  exists i : Invocation,
    emitted s s' [i] /\
    (~ In name ["rand_integer"; "log"] ->
     flatten (operands i)
     = map _get_java_expression pos ++ supplied_defaults name pos) /\
    (In name ["rand_integer"; "log"] ->
     flatten (operands i) = rev (map _get_java_expression pos)).
Proof.
  intros Hin Hne Hplain Hrun.
  destruct (public_single name f pos Hin Hne) as [exc H | how o args H].
  { rewrite H in Hrun. discriminate Hrun. }
  rewrite H in Hrun. apply returns_inv in Hrun as (_ & Hemitted & _).
  exists (mkInvocation how o args). split; [exact Hemitted |]. split.
  - intros Hnot.
    assert (~ In name ["rand_integer"; "log"; "to_timestamp_ltz"]) as Hnot'.
    { intros [Hn | [Hn | [Hn | []]]];
        [apply Hnot; now left | apply Hnot; right; now left | now apply Hne]. }
    destruct (public_order name f pos Hin Hnot' Hplain) as [exc' H' _ | how' o' args' H' Hok].
    + specialize (H init). rewrite H' in H. discriminate H.
    + specialize (H init). rewrite H' in H. unfold returns in H.
      injection H as _ _ <-. exact Hok.
  - intros Hrev.
    destruct (public_reversed name f pos Hin Hrev Hplain) as [exc' H' _ | how' o' args' H' Hok].
    + specialize (H init). rewrite H' in H. discriminate H.
    + specialize (H init). rewrite H' in H. unfold returns in H.
      injection H as _ _ <-. exact Hok.
Qed.

Lemma operands_follow_the_arguments_witness :
  exists i : Invocation,
    emitted init
      {| trace := [static "concatWs"
                     [PStr ","; PStr "a"; JArray [PStr "b"; PStr "c"]]];
         py_next := 1 |} [i] /\
    (~ In "concat_ws" ["rand_integer"; "log"] ->
     flatten (operands i)
     = map _get_java_expression [PStr ","; PStr "a"; PStr "b"; PStr "c"]
         ++ supplied_defaults "concat_ws" [PStr ","; PStr "a"; PStr "b"; PStr "c"]) /\
    (In "concat_ws" ["rand_integer"; "log"] ->
     flatten (operands i)
     = rev (map _get_java_expression [PStr ","; PStr "a"; PStr "b"; PStr "c"])).
Proof.
  refine (operands_follow_the_arguments
            "concat_ws" (signature.varargs2 concat_ws)
            [PStr ","; PStr "a"; PStr "b"; PStr "c"] init
            (PExpression 0
               (handle_of (static "concatWs"
                             [PStr ","; PStr "a"; JArray [PStr "b"; PStr "c"]])))
            _ _ _ _ _).
  - cbv [public_functions In]. do 35 right. left. reflexivity.
  - discriminate.
  - repeat constructor.
  - reflexivity.
Defined.

Lemma public_packing (name : string) (n : nat) (f : signature.Callable)
  (pos : list PyVal) :
  In (name, n) packing ->
  In (name, f) public_functions ->
  outcome (fun exc => exc = TypeError /\ n > length pos)
          (fun how o args =>
             n <= length pos /\
             how = Static /\
             o = camel_case name /\
             args = map _get_java_expression (firstn n pos)
                      ++ [JArray (map _get_java_expression (skipn n pos))])
          (f pos).
Proof.
  intros Hpack Hin. cbv [packing In] in Hpack.
  each_public Hin
    ltac:(repeat (destruct Hpack as [Hpack | Hpack];
                  [first [ discriminate Hpack
                         | injection Hpack as <-;
                           unfold_public; split_cases;
                           classify ltac:(split; [reflexivity | cbn; lia])
                                    ltac:(split; [cbn; lia | repeat split; reflexivity]) ]
                  |]);
          destruct Hpack).
Qed.

(** X4: the functions that pack their variable arguments always invoke
    their operation with the same number of operands: the fixed arguments,
    then one array with the remaining ones in order, which is empty when
    there are none; with fewer than the fixed arguments the call raises
    [TypeError]. *)
Theorem variable_arguments_travel_in_one_array
  (name : string) (n : nat) (f : signature.Callable) (pos : list PyVal)
  (s : State) :
  In (name, n) packing ->
  In (name, f) public_functions ->
  (length pos < n -> f pos s = Raise TypeError) /\
  (n <= length pos ->
   f pos s =
     returns s 0
       [static (camel_case name)
          (map _get_java_expression (firstn n pos)
             ++ [JArray (map _get_java_expression (skipn n pos))])]
       (handle_of
          (static (camel_case name)
             (map _get_java_expression (firstn n pos)
                ++ [JArray (map _get_java_expression (skipn n pos))])))).
Proof.
  intros Hpack Hin.
  destruct (public_packing name n f pos Hpack Hin)
    as [exc H [-> Hshort] | how o args H (Hlong & -> & -> & ->)].
  - split; [intros _; apply H | lia].
  - split; [lia | intros _; apply H].
Qed.

Lemma variable_arguments_travel_in_one_array_witness :
  (length [PBool true; PBool false] < 2 ->
   signature.varargs2 and_ [PBool true; PBool false] init = Raise TypeError) /\
  (2 <= length [PBool true; PBool false] ->
   signature.varargs2 and_ [PBool true; PBool false] init =
     returns init 0
       [static "and" [PBool true; PBool false; JArray []]]
       (handle_of (static "and" [PBool true; PBool false; JArray []]))).
Proof.
  refine (variable_arguments_travel_in_one_array
            "and_" 2 (signature.varargs2 and_) [PBool true; PBool false] init
            _ _).
  - cbv [packing In]. left. reflexivity.
  - cbv [public_functions In]. do 3 right. left. reflexivity.
Defined.

(** ** Defaults and argument counts *)


(** X9: [to_timestamp_ltz] without arguments fails with [IndexError] on
    its first subscript, and with more than three arguments it does what it
    does with the first three: the others are never read. *)
Theorem to_timestamp_ltz_reads_three_arguments (s : State) (args : list PyVal) :
  (args = [] -> py_call "to_timestamp_ltz" args s = Raise IndexError) /\
  (3 <= length args ->
   py_call "to_timestamp_ltz" args s
   = py_call "to_timestamp_ltz" (firstn 3 args) s).
Proof.
  split.
  - intros ->. reflexivity.
  - intros Hlen.
    destruct args as [| a0 [| a1 [| a2 [| a3 rest]]]]; cbn in Hlen; try lia;
      reflexivity.
Qed.

Lemma to_timestamp_ltz_reads_three_arguments_witness :
  py_call "to_timestamp_ltz" [PInt 100; PInt 3; PStr "UTC"; PStr "extra"] init
  = py_call "to_timestamp_ltz" [PInt 100; PInt 3; PStr "UTC"] init.
Proof.
  refine (proj2 (to_timestamp_ltz_reads_three_arguments init
                   [PInt 100; PInt 3; PStr "UTC"; PStr "extra"]) _).
  cbn. lia.
Defined.

(** ** The documentation pass, counted *)

Lemma append_assoc (a b c : string) :
  ((a ++ b) ++ c)%string = (a ++ (b ++ c))%string.
Proof.
  induction a as [| ch a IH]; [reflexivity |].
  change (String ch ((a ++ b) ++ c)%string = String ch (a ++ (b ++ c))%string).
  now f_equal.
Qed.

Lemma append_empty (a : string) : (a ++ "")%string = a.
Proof.
  induction a as [| ch a IH]; [reflexivity |].
  change (String ch (a ++ "")%string = String ch a). now f_equal.
Qed.

Lemma markers_add (n m : nat) (version : string) :
  markers (n + m) version = (markers n version ++ markers m version)%string.
Proof.
  induction n as [| n IH]; [reflexivity |].
  cbn [Nat.add markers]. now rewrite IH, append_assoc.
Qed.

Lemma public_bindings_app (members members' : list (string * nat)) (ref : nat) :
  public_bindings (members ++ members') ref
  = public_bindings members ref + public_bindings members' ref.
Proof.
  unfold public_bindings. now rewrite List.filter_app, length_app.
Qed.

Lemma pass_counts (members : list (string * nat)) (heap : list PyObj)
  (ref : nat) (doc : string) (body : signature.Callable) :
  heap !! ref = Some (OFunction {| f_doc := doc; f_call := body |}) ->
  _add_version_doc members heap !! ref
  = Some (OFunction
            {| f_doc := (doc ++ markers (public_bindings members ref) "1.12.0")%string;
               f_call := body |}).
Proof.
  unfold _add_version_doc. revert heap doc.
  induction members as [| [name r] members IH]; intros heap doc Href.
  - cbn. now rewrite append_empty.
  - cbn [fold_left]. unfold public_bindings. cbn [List.filter fst snd].
    destruct (decide (r = ref)) as [-> | Hne].
    + rewrite Nat.eqb_refl. cbn [andb].
      unfold annotate at 2. cbn [fst snd]. unfold isfunction. rewrite Href.
      cbn [andb]. destruct (negb (startswith name "_")).
      * rewrite (IH _ (doc ++ versionadded "1.12.0")%string).
        -- cbn [length markers]. now rewrite append_assoc.
        -- now rewrite (add_version_doc_lookup_eq _ _ _ _ Href).
      * now apply IH.
    + apply Nat.eqb_neq in Hne as Hneb. rewrite Hneb. cbn [andb].
      apply IH. rewrite <- Href. apply annotate_untouched.
      cbn [fst snd]. intros Heq. now destruct Hne.
Qed.

(** X10: the pass appends to the docstring of a function object one
    marker for every public name of the namespace that is bound to it, and
    leaves its code alone; run a second time it appends them again. *)
Theorem pass_appends_one_marker_per_public_name
  (members : list (string * nat)) (heap : list PyObj) (ref : nat)
  (fn : Function) :
  heap !! ref = Some (OFunction fn) ->
  _add_version_doc members heap !! ref
    = Some (OFunction
              {| f_doc := (f_doc fn
                           ++ markers (public_bindings members ref) "1.12.0")%string;
                 f_call := f_call fn |}) /\
  _add_version_doc members (_add_version_doc members heap) !! ref
    = Some (OFunction
              {| f_doc := (f_doc fn
                           ++ markers (2 * public_bindings members ref) "1.12.0")%string;
                 f_call := f_call fn |}).
Proof.
  intros Href. destruct fn as [doc body]. cbn [f_doc f_call].
  pose proof (pass_counts members heap ref doc body Href) as Hone.
  split; [exact Hone |].
  rewrite (pass_counts members _ ref _ body Hone).
  rewrite append_assoc. replace (2 * public_bindings members ref)
    with (public_bindings members ref + public_bindings members ref) by lia.
  now rewrite markers_add.
Qed.

Lemma pass_appends_one_marker_per_public_name_witness :
  let fn := {| f_doc := "Creates an expression."; f_call := signature.params1 expressions.col |} in
  let members := [("col", 0); ("_col", 0); ("column", 0)] in
  _add_version_doc members [OFunction fn] !! 0
    = Some (OFunction
              {| f_doc := (f_doc fn ++ markers (public_bindings members 0) "1.12.0")%string;
                 f_call := f_call fn |}) /\
  _add_version_doc members (_add_version_doc members [OFunction fn]) !! 0
    = Some (OFunction
              {| f_doc := (f_doc fn
                           ++ markers (2 * public_bindings members 0) "1.12.0")%string;
                 f_call := f_call fn |}).
Proof.
  intros fn members.
  refine (pass_appends_one_marker_per_public_name members [OFunction fn] 0 fn _).
  reflexivity.
Defined.


(** ** Wrappers stay on the Python side *)





(** Splits the hypothesis on the arguments over the arguments. *)
Ltac use_python_values :=
  repeat match goal with
         | H : Forall python_value (_ :: _) |- _ =>
             let Hv := fresh "Hvalue" in
             apply List.Forall_cons_iff in H; destruct H as [Hv H]
         end.





(** ** Translated arguments *)

Lemma unpack_python_value (v : PyVal) :
  python_value v -> unpack (_get_java_expression v) = [_get_java_expression v].
Proof.
  destruct v as [| | | | | | | | id j | | | | | |]; cbn; try tauto.
  destruct j; cbn; tauto.
Qed.

Lemma flatten_python_values (l : list PyVal) :
  Forall python_value l ->
  flatten (map _get_java_expression l) = map _get_java_expression l.
Proof.
  unfold flatten. induction 1 as [| v l Hv _ IH]; [reflexivity |].
  cbn [map flat_map]. now rewrite IH, unpack_python_value.
Qed.

Ltac translation_holds :=
  let Ht := fresh in
  let Hn := fresh in
  let Hv := fresh in
  intros ? ? ? ? Ht Hn Hv; cbv in Ht;
  first
    [ discriminate Ht
    | injection Ht as <- <- <-; cbn in Hn;
      first
        [ discriminate Hn
        | injection Hn as <-;
          first
            [ now destruct Hv
            | unfold flatten, to_jarray;
              cbn [flat_map map app firstn skipn translate
                   _get_java_expression unpack];
              rewrite ?unpack_python_value by assumption;
              cbn [app]; rewrite ?app_nil_r;
              first [ reflexivity
                    | f_equal; apply flatten_python_values; assumption ] ] ] ].

Lemma public_translation (name : string) (f : signature.Callable) (pos : list PyVal) :
  In (name, f) public_functions ->
  name <> "to_timestamp_ltz" ->
  Forall python_value pos ->
  outcome (fun _ => True)
          (fun _ _ args =>
             forall k accepts exc v,
               assoc name translated = Some (k, accepts, exc) ->
               nth_error pos k = Some v ->
               v <> PNone ->
               flatten args
               = map _get_java_expression (firstn k pos)
                   ++ translate v :: map _get_java_expression (skipn (S k) pos))
          (f pos).
Proof.
  intros Hin Hne Hvalues.
  each_public Hin
    ltac:(unfold_public; split_cases; use_python_values;
          classify ltac:(exact I) ltac:(translation_holds)).
Qed.

(** X7: when a translating function returns, its operands are the
    arguments in order with the translated argument replaced by its remote
    representation: the Java data type, enum constant or function
    definition crosses the bridge, never the Python object. *)
Theorem translated_argument_is_replaced
  (name : string) (f : signature.Callable) (pos : list PyVal)
  (s : State) (w : PyVal) (s' : State)
  (k : nat) (accepts : PyVal -> bool) (exc : PyExc) (v : PyVal) :
  In (name, f) public_functions ->
  Forall python_value pos ->
  assoc name translated = Some (k, accepts, exc) ->
  nth_error pos k = Some v ->
  v <> PNone ->
  f pos s = Ok (w, s') ->
  exists i : Invocation,
    emitted s s' [i] /\
    accepts v = true /\
    flatten (operands i)
    = map _get_java_expression (firstn k pos)
        ++ translate v :: map _get_java_expression (skipn (S k) pos).
Proof.
  intros Hin Hvalues Ht Hn Hv Hrun.
  assert (name <> "to_timestamp_ltz") as Hne by (intros ->; discriminate Ht).
  destruct (public_translation name f pos Hin Hne Hvalues)
    as [e H _ | how o args H Hok].
  { rewrite H in Hrun. discriminate Hrun. }
  destruct (public_failures name f pos Hin Hne) as [e' H' _ | how' o' args' _ Haccepts].
  { rewrite H' in Hrun. discriminate Hrun. }
  rewrite H in Hrun. apply returns_inv in Hrun as (_ & Hemitted & _).
  exists (mkInvocation how o args). split; [exact Hemitted |].
  split; [exact (Haccepts k accepts exc v Ht Hn) |].
  exact (Hok k accepts exc v Ht Hn Hv).
Qed.

Lemma translated_argument_is_replaced_witness :
  exists i : Invocation,
    emitted init
      {| trace := [static "timestampDiff"
                     [JTimePointUnit "DAY"; PStr "2016-06-15"; PStr "2016-06-18"]];
         py_next := 1 |} [i] /\
    is_time_point_unit (PTimePointUnit "DAY") = true /\
    flatten (operands i)
    = map _get_java_expression
        (firstn 0 [PTimePointUnit "DAY"; PStr "2016-06-15"; PStr "2016-06-18"])
        ++ translate (PTimePointUnit "DAY")
           :: map _get_java_expression
                (skipn 1 [PTimePointUnit "DAY"; PStr "2016-06-15"; PStr "2016-06-18"]).
Proof.
  refine (translated_argument_is_replaced
            "timestamp_diff" (signature.params3 timestamp_diff)
            [PTimePointUnit "DAY"; PStr "2016-06-15"; PStr "2016-06-18"] init
            (PExpression 0
               (handle_of
                  (static "timestampDiff"
                     [JTimePointUnit "DAY"; PStr "2016-06-15"; PStr "2016-06-18"])))
            _ 0 is_time_point_unit AttributeError (PTimePointUnit "DAY")
            _ _ _ _ _ _).
  - cbv [public_functions In]. do 18 right. left. reflexivity.
  - repeat constructor.
  - reflexivity.
  - reflexivity.
  - discriminate.
  - reflexivity.
Defined.
